(** * clickhouse-cleaner: a model of [cleaner/clickhouse_cleaner.py]

    The script searches a ClickHouse table for keys that match a prefix,
    asks the operator whether to delete them, starts the delete mutation
    and polls [system.mutations] for its progress.

    The model follows the script function by function.  Rows of a JSON
    result are dictionaries from column names to JSON scalars; HTTP
    replies and operator answers come from a script held in the state,
    and every request, printed line, prompt and sleep is appended to a
    trace.  Python exceptions are results of the computation, and the
    waiting loop, which has no bound of its own, runs on fuel.

    The older script [main.py] is modelled in the module [MainPy]. *)

From Stdlib Require Import ZArith String Ascii List Bool Lia Permutation.
From stdpp Require Import base option strings pretty gmap.

Local Open Scope string_scope.
Local Open Scope Z_scope.

(** ** Python values and exceptions *)

(** The JSON scalars a ClickHouse row can hold.  Array and floating-point
    columns are not read by the script and are left out. *)
Inductive value : Type :=
  | VNone
  | VBool (b : bool)
  | VInt (z : Z)
  | VStr (s : string).

(** A row of a result set, as [r.json()] builds it. *)
Abbreviation record := (gmap string value).

Inductive exn : Type :=
  | RuntimeError (msg : string)
  | TypeError
  | ValueError
  | KeyError
  | ConnectionError
  | EOFError.

Inductive result (A : Type) : Type :=
  | Ok (a : A)
  | Err (e : exn).
Arguments Ok {A} a.
Arguments Err {A} e.

Definition ok_part {A} (r : result A) : option A :=
  match r with Ok a => Some a | Err _ => None end.

(** [d.get(k)]: the value, or [None] when the key is absent. *)
Definition dict_get (d : record) (k : string) : value :=
  match d !! k with
  | Some v => v
  | None => VNone
  end.

(** *** [int(x)]

    A [str] is held as its UTF-8 bytes.  [int] on a [str] first turns every
    Unicode blank into a space and every Unicode decimal digit into its
    ASCII digit, then reads an ASCII numeral: blanks around it, a sign,
    and decimal digits that single underscores may separate, at most
    [int_max_str_digits] of them (CPython 3.11, Unicode 14.0). *)

(** The code points of a UTF-8 string; [None] when the bytes are not UTF-8. *)
Definition continuation (c : ascii) : option N :=
  let n := N_of_ascii c in
  if ((128 <=? n) && (n <? 192))%N then Some (n - 128)%N else None.

Fixpoint decode_utf8 (s : string) : option (list N) :=
  match s with
  | EmptyString => Some []
  | String b0 rest =>
      let n0 := N_of_ascii b0 in
      if (n0 <? 128)%N then cons n0 <$> decode_utf8 rest
      else if ((192 <=? n0) && (n0 <? 224))%N then
        match rest with
        | String b1 rest1 =>
            match continuation b1 with
            | Some n1 =>
                let cp := ((n0 - 192) * 64 + n1)%N in
                if (128 <=? cp)%N then cons cp <$> decode_utf8 rest1 else None
            | None => None
            end
        | EmptyString => None
        end
      else if ((224 <=? n0) && (n0 <? 240))%N then
        match rest with
        | String b1 (String b2 rest2) =>
            match continuation b1, continuation b2 with
            | Some n1, Some n2 =>
                let cp := ((n0 - 224) * 4096 + n1 * 64 + n2)%N in
                if (2048 <=? cp)%N then cons cp <$> decode_utf8 rest2 else None
            | _, _ => None
            end
        | _ => None
        end
      else if ((240 <=? n0) && (n0 <? 248))%N then
        match rest with
        | String b1 (String b2 (String b3 rest3)) =>
            match continuation b1, continuation b2, continuation b3 with
            | Some n1, Some n2, Some n3 =>
                let cp := ((n0 - 240) * 262144 + n1 * 4096 + n2 * 64 + n3)%N in
                if ((65536 <=? cp) && (cp <=? 1114111))%N
                then cons cp <$> decode_utf8 rest3 else None
            | _, _, _ => None
            end
        | _ => None
        end
      else None
  end.

(** The blanks of [str.isspace] above ASCII. *)
Definition unicode_space (cp : N) : bool :=
  ((cp =? 133) || (cp =? 160) || (cp =? 5760)
   || ((8192 <=? cp) && (cp <=? 8202))
   || (cp =? 8232) || (cp =? 8233) || (cp =? 8239) || (cp =? 8287) || (cp =? 12288))%N.

(** Where the runs of ten decimal digits start, above ASCII. *)
Definition decimal_zeros : list N :=
  [1632; 1776; 1984; 2406; 2534; 2662; 2790; 2918; 3046; 3174; 3302; 3430; 3558;
   3664; 3792; 3872; 4160; 4240; 6112; 6160; 6470; 6608; 6784; 6800; 6992; 7088;
   7232; 7248; 42528; 43216; 43264; 43472; 43504; 43600; 44016; 65296; 66720;
   68912; 69734; 69872; 69942; 70096; 70384; 70736; 70864; 71248; 71360; 71472;
   71904; 72016; 72784; 73040; 73120; 92768; 92864; 93008; 120782; 120792;
   120802; 120812; 120822; 123200; 123632; 125264; 130032]%N.

Definition unicode_decimal (cp : N) : option N :=
  match List.find (fun zero => (zero <=? cp) && (cp <? zero + 10))%N decimal_zeros with
  | Some zero => Some (cp - zero)%N
  | None => None
  end.

(** The ASCII text [int] reads in place of the string; [None] when a
    character above ASCII is neither a blank nor a decimal digit. *)
Fixpoint to_ascii_digits (cps : list N) : option string :=
  match cps with
  | [] => Some EmptyString
  | cp :: rest =>
      let c := if (cp <? 127)%N then Some (ascii_of_N cp)
               else if unicode_space cp then Some " "%char
               else (fun d => ascii_of_N (48 + d)) <$> unicode_decimal cp in
      match c, to_ascii_digits rest with
      | Some c, Some text => Some (String c text)
      | _, _ => None
      end
  end.

Definition is_space (c : ascii) : bool :=
  let n := nat_of_ascii c in
  ((9 <=? n)%nat && (n <=? 13)%nat) || (n =? 32)%nat.

Definition is_digit (c : ascii) : bool :=
  let n := nat_of_ascii c in (48 <=? n)%nat && (n <=? 57)%nat.

Definition digit_val (c : ascii) : Z := Z.of_nat (nat_of_ascii c) - 48.

Fixpoint lstrip (s : string) : string :=
  match s with
  | String c s' => if is_space c then lstrip s' else s
  | EmptyString => EmptyString
  end.

Fixpoint rstrip (s : string) : string :=
  match s with
  | String c s' =>
      match rstrip s' with
      | EmptyString => if is_space c then EmptyString else String c EmptyString
      | r => String c r
      end
  | EmptyString => EmptyString
  end.

Definition strip (s : string) : string := rstrip (lstrip s).

(** [sys.get_int_max_str_digits()] as the interpreter starts. *)
Definition int_max_str_digits : nat := 4300.

(** Decimal digits, where single underscores may separate digits.
    [count] is the number of digits read and [after_digit] tells whether
    the previous character was a digit. *)
Fixpoint parse_digits (acc : Z) (count : nat) (after_digit : bool) (s : string)
  : option Z :=
  match s with
  | EmptyString =>
      if after_digit && (count <=? int_max_str_digits)%nat then Some acc else None
  | String c s' =>
      if is_digit c then parse_digits (acc * 10 + digit_val c) (S count) true s'
      else if Ascii.eqb c "_"
           then (if after_digit then parse_digits acc count false s' else None)
           else None
  end.

Definition parse_ascii_int (s : string) : option Z :=
  match strip s with
  | String "-" s' => Z.opp <$> parse_digits 0 0 false s'
  | String "+" s' => parse_digits 0 0 false s'
  | s' => parse_digits 0 0 false s'
  end.

(** [int(s)] for a [str]; [None] stands for the [ValueError]. *)
Definition parse_int (s : string) : option Z :=
  match decode_utf8 s with
  | Some cps =>
      match to_ascii_digits cps with
      | Some text => parse_ascii_int text
      | None => None
      end
  | None => None
  end.

Definition py_int (v : value) : result Z :=
  match v with
  | VNone => Err TypeError
  | VBool b => Ok (if b then 1 else 0)
  | VInt z => Ok z
  | VStr s => match parse_int s with
              | Some z => Ok z
              | None => Err ValueError
              end
  end.

(** *** [x == y] *)

Definition py_eq (x y : value) : bool :=
  match x, y with
  | VNone, VNone => true
  | VBool a, VBool b => Bool.eqb a b
  | VBool a, VInt z | VInt z, VBool a => (if a then 1 else 0) =? z
  | VInt a, VInt b => a =? b
  | VStr a, VStr b => String.eqb a b
  | _, _ => false
  end.

(** *** [str(x)] *)

Definition str_of_Z (z : Z) : string := pretty z.
Definition str_of_nat (n : nat) : string := pretty n.

Definition py_str (v : value) : string :=
  match v with
  | VNone => "None"
  | VBool true => "True"
  | VBool false => "False"
  | VInt z => str_of_Z z
  | VStr s => s
  end.

(** ** [mutation_status] *)

(** [[i for i in data if int(i.get("parts_to_do")) > 0]]: the first row
    whose field [int] rejects raises. *)
Fixpoint parts_pending (data : list record) : result (list record) :=
  match data with
  | [] => Ok []
  | i :: rest =>
      match py_int (dict_get i "parts_to_do") with
      | Err e => Err e
      | Ok n =>
          match parts_pending rest with
          | Err e => Err e
          | Ok l => Ok (if 0 <? n then i :: l else l)
          end
      end
  end.

Definition mutation_status (data : list record) : result (nat * nat * nat * nat) :=
  match parts_pending data with
  | Err e => Err e
  | Ok pending =>
      let in_progress := length pending in
      let total := length data in
      let completed :=
        length (List.filter (fun i => py_eq (dict_get i "is_done") (VInt 1)) data) in
      let failed :=
        length (List.filter
                  (fun i => negb (py_eq (dict_get i "latest_failed_part") (VStr EmptyString))) data) in
      Ok (in_progress, total, completed, failed)
  end.


(** ** The world the script runs in *)

(** What [r.json()] finds in the body of a reply. *)
Inductive json_body : Type :=
  | JsonData (rows : list record)
  | JsonNoData
  | JsonInvalid.

Record response : Type := {
  status_code : Z;
  text : string;
  json : json_body
}.

(** [r.ok]: false for the client and server error codes. *)
Definition resp_ok (r : response) : bool :=
  negb ((400 <=? status_code r) && (status_code r <? 600)).

Inductive event : Type :=
  | EPost (expression : string)
  | EPrint (line : string)
  | EInput (prompt : string)
  | ESleep.

(** [replies] are the replies the server will give to the coming requests,
    in order; once they are used up the connection fails.  [answers] are
    the lines the operator will type.  [today] is the date of the run. *)
Record world : Type := {
  replies : list response;
  answers : list string;
  today : string;
  trace : list event
}.

Definition log (e : event) (w : world) : world :=
  {| replies := replies w; answers := answers w; today := today w;
     trace := trace w ++ [e] |}.

Definition set_replies (rs : list response) (w : world) : world :=
  {| replies := rs; answers := answers w; today := today w; trace := trace w |}.

Definition set_answers (l : list string) (w : world) : world :=
  {| replies := replies w; answers := l; today := today w; trace := trace w |}.

(** A computation returns, raises, or is still running when the fuel of
    its polling loop is spent. *)
Inductive outcome (A : Type) : Type :=
  | Returns (a : A)
  | Raises (e : exn)
  | Diverges.
Arguments Returns {A} a.
Arguments Raises {A} e.
Arguments Diverges {A}.

Definition M (A : Type) : Type := world -> outcome A * world.

#[global] Instance M_ret : MRet M := fun A a w => (Returns a, w).

#[global] Instance M_bind : MBind M := fun A B f m w =>
  match m w with
  | (Returns a, w') => f a w'
  | (Raises e, w') => (Raises e, w')
  | (Diverges, w') => (Diverges, w')
  end.

Definition raise {A} (e : exn) : M A := fun w => (Raises e, w).

Definition diverge {A} : M A := fun w => (Diverges, w).

Definition lift {A} (r : result A) : M A :=
  match r with
  | Ok a => mret a
  | Err e => raise e
  end.

(** [try: body except RuntimeError as error: handler] *)
Definition try_except {A} (body : M A) (handler : string -> M A) : M A := fun w =>
  match body w with
  | (Raises (RuntimeError msg), w') => handler msg w'
  | r => r
  end.

(** [try: body finally: fin; return]: the [return] of the [finally] block
    drops whatever [body] raised. *)
Definition finally_return {A} (body : M A) (fin : M A) : M A := fun w =>
  match body w with
  | (Diverges, w') => (Diverges, w')
  | (_, w') => fin w'
  end.

Definition print (line : string) : M unit := fun w => (Returns tt, log (EPrint line) w).

Definition sleep : M unit := fun w => (Returns tt, log ESleep w).

Definition input (prompt : string) : M string := fun w =>
  match answers w with
  | [] => (Raises EOFError, log (EInput prompt) w)
  | a :: rest => (Returns a, set_answers rest (log (EInput prompt) w))
  end.

Definition get_today : M string := fun w => (Returns (today w), w).

Fixpoint for_each {A} (l : list A) (body : A -> M unit) : M unit :=
  match l with
  | [] => mret tt
  | x :: rest => body x ;; for_each rest body
  end.

(** ** Strings *)

Definition nl : string := String "010" EmptyString.
Definition esc : string := String "027" EmptyString.

Definition cat (l : list string) : string := String.concat EmptyString l.

(** [x or "None"] inside an f-string, for a value that is a [str] or [None]. *)
Definition fmt (x : option string) : string := default "None" x.

(** [a or b] on values that are a [str] or [None]. *)
Definition py_or (a b : option string) : option string :=
  match a with
  | Some s => if String.eqb s EmptyString then b else a
  | None => b
  end.

(** [s.split(sep)] for a separator of one character. *)
Fixpoint split (sep : ascii) (s : string) : list string :=
  match s with
  | EmptyString => [EmptyString]
  | String c s' =>
      if Ascii.eqb c sep then EmptyString :: split sep s'
      else match split sep s' with
           | h :: t => String c h :: t
           | [] => [String c EmptyString]
           end
  end.

Definition lower_ascii (c : ascii) : ascii :=
  let n := nat_of_ascii c in
  if ((65 <=? n) && (n <=? 90))%nat then ascii_of_nat (n + 32) else c.

(** [s.lower()] on UTF-8 bytes: ASCII letters and the Cyrillic capitals
    U+0400 to U+042F; bytes of other scripts are kept. *)
Fixpoint lower (s : string) : string :=
  match s with
  | EmptyString => EmptyString
  | String c1 rest =>
      match rest with
      | String c2 s' =>
          let n2 := nat_of_ascii c2 in
          if (nat_of_ascii c1 =? 208)%nat then
            if ((128 <=? n2) && (n2 <=? 143))%nat
            then String (ascii_of_nat 209) (String (ascii_of_nat (n2 + 16)) (lower s'))
            else if ((144 <=? n2) && (n2 <=? 159))%nat
            then String c1 (String (ascii_of_nat (n2 + 32)) (lower s'))
            else if ((160 <=? n2) && (n2 <=? 175))%nat
            then String (ascii_of_nat 209) (String (ascii_of_nat (n2 - 32)) (lower s'))
            else String c1 (lower rest)
          else String (lower_ascii c1) (lower rest)
      | EmptyString => String (lower_ascii c1) EmptyString
      end
  end.

Definition str_in (s : string) (l : list string) : bool :=
  existsb (String.eqb s) l.

(** ** [Color] *)

Inductive color : Type := red | green | yellow | blue | magneta | cyan | white | grey.

Definition color_code (c : color) : string :=
  esc +:+ match c with
          | red => "[91m" | green => "[92m" | yellow => "[93m" | blue => "[94m"
          | magneta => "[95m" | cyan => "[96m" | white => "[97m" | grey => "[90m"
          end.

Definition color_end : string := esc +:+ "[0m".

(** [Color.make(target, color)] for a [str] target. *)
Definition Color_make (target : string) (c : color) : string :=
  if String.eqb target EmptyString then target
  else cat [color_code c; target; color_end].

(** [Color.make(error, color)] for an exception, which is never falsy;
    [msg] is [str(error)]. *)
Definition Color_make_error (msg : string) (c : color) : string :=
  cat [color_code c; msg; color_end].

(** ** [execute_sql] *)

Inductive result_format : Type := FmtJson | FmtText.

(** What [execute_sql] hands back: the rows under ["data"], the reply's
    text, or the flag [status]. *)
Inductive sql_value : Type :=
  | SRows (rows : list record)
  | SText (s : string)
  | SFlag (b : bool).

Definition truthy (v : sql_value) : bool :=
  match v with
  | SRows rows => negb (Nat.eqb (length rows) 0)
  | SText s => negb (String.eqb s EmptyString)
  | SFlag b => b
  end.

(** [for x in v]: only a list of rows is iterated by the script. *)
Definition iter_rows (v : sql_value) : result (list record) :=
  match v with
  | SRows rows => Ok rows
  | SText _ | SFlag _ => Err TypeError
  end.

Definition query_error (expression : string) (r : response) : exn :=
  RuntimeError (cat [nl; "An error occurred with the query: "; expression; ". "; nl;
                     "HTTP "; str_of_Z (status_code r); ", Details: "; text r]).

Definition execute_sql (expression : string) (result_format : result_format)
  : M sql_value := fun w =>
  let w := log (EPost expression) w in
  match replies w with
  | [] => (Raises ConnectionError, w)
  | r :: rest =>
      let w := set_replies rest w in
      let status := resp_ok r in
      if negb (resp_ok r) then (Raises (query_error expression r), w)
      else match result_format with
           | FmtJson =>
               match json r with
               | JsonData rows => (Returns (SRows rows), w)
               | JsonNoData => (Returns (SFlag status), w)
               | JsonInvalid => (Raises ValueError, w)
               end
           | FmtText =>
               if String.eqb (text r) EmptyString then (Returns (SFlag status), w)
               else (Returns (SText (text r)), w)
           end
  end.

(** ** [get_data] and [delete_data] *)

Definition search_query (prefix : string) (key database : option string) (table : string)
  : string :=
  cat ["SELECT DISTINCT "; fmt key; " ";
       "FROM "; fmt database; "."; table; " ";
       "WHERE match("; fmt key; ", '^"; prefix; "')"].

Definition delete_query (prefix : string) (key database : option string) (table : string)
  : string :=
  cat ["ALTER TABLE "; fmt database; "."; table;
       " DELETE WHERE match("; fmt key; ", '^"; prefix; "')"].

(** [record[key]] *)
Definition dict_item (d : record) (key : option string) : result value :=
  match key with
  | Some k => match d !! k with
              | Some v => Ok v
              | None => Err KeyError
              end
  | None => Err KeyError
  end.

Fixpoint map_result {A B} (f : A -> result B) (l : list A) : result (list B) :=
  match l with
  | [] => Ok []
  | x :: rest =>
      match f x with
      | Err e => Err e
      | Ok y => match map_result f rest with
                | Err e => Err e
                | Ok ys => Ok (y :: ys)
                end
      end
  end.

Definition get_data (prefix : string) (key database : option string) (table : string)
  : M (string * option string) :=
  let query := search_query prefix key database table in
  data ← execute_sql query FmtJson;
  rows ← lift (iter_rows data);
  result ← lift (map_result (fun record => dict_item record key) rows);
  let matches := String.concat nl (map (fun path => "- " +:+ py_str path) result) in
  match result with
  | [] =>
      let message :=
        Color_make (cat ["No matches were found for the prefix '"; prefix; "'"]) grey in
      mret (message, None)
  | _ =>
      let message :=
        Color_make (cat [nl; "Matches found for the prefix '"; prefix;
                         "' (unique keys count: "; str_of_nat (length result); ")"]) green in
      mret (message, Some matches)
  end.

Definition delete_data (prefix : string) (key database : option string) (table : string)
  : M unit :=
  let query := delete_query prefix key database table in
  let metadata :=
    cat ["source="; fmt database; "."; table; " key="; fmt key; ", prefix="; prefix] in
  r ← execute_sql query FmtText;
  if truthy r then print (cat [metadata; " "; Color_make "- OK" green])
  else print (Color_make (cat ["Something went wrong... ["; metadata; "]"]) red).

(** ** [check_mutations] *)

Definition mutations_query (database : option string) (table today : string) : string :=
  cat ["SELECT * FROM system.mutations ";
       "WHERE database='"; fmt database; "' ";
       "AND table='"; table; "' AND toDate(create_time) = '"; today; "'"].

(** [mutation_status(result)] on what [execute_sql] returned. *)
Definition status_of (result : sql_value) : M (nat * nat * nat * nat) :=
  rows ← lift (iter_rows result);
  lift (mutation_status rows).

(** The [while] loop.  Its body binds the third component of the new
    status to [success]; [completed] keeps the value it had. *)
Fixpoint await_loop (fuel : nat) (query : string) (vars : nat * nat * nat * nat)
  : M (nat * nat * nat * nat) :=
  let '(in_progress, total, completed, failed) := vars in
  if negb (Nat.eqb in_progress 0) && Nat.eqb failed 0 then
    match fuel with
    | O => diverge
    | S fuel' =>
        result ← execute_sql query FmtJson;
        '(in_progress, total, success, failed) ← status_of result;
        sleep ;;
        await_loop fuel' query (in_progress, total, completed, failed)
    end
  else mret vars.

Definition rule (n : nat) : string := cat (repeat "-" n).

Definition check_mutations (database : option string) (table : string)
    (await_complete pretty : bool) (fuel : nat) : M unit :=
  today ← get_today;
  let query := mutations_query database table today in
  result ← execute_sql query FmtJson;
  vars ← status_of result;
  vars ← (if await_complete
          then print (Color_make (nl +:+ "Waiting for the mutation to complete...") grey) ;;
               await_loop fuel query vars
          else mret vars);
  let '(in_progress, total, completed, failed) := vars in
  (if Nat.ltb 0 failed
   then print (Color_make
                 "One of the mutations failed with an error. Use clickhouse-client for details."
                 red)
   else mret tt) ;;
  print (Color_make (cat [nl; "Mutation status for '"; fmt database; "."; table; "'"]) cyan) ;;
  print (rule 40) ;;
  if pretty
  then print (cat ["In Progress: "; str_of_nat in_progress; " "; nl;
                   "Failed: "; str_of_nat failed; nl])
  else print (cat ["In Progress: "; str_of_nat in_progress; " "; nl;
                   "Completed: "; str_of_nat completed; " "; nl;
                   "Failed: "; str_of_nat failed; " "; nl;
                   "Total: "; str_of_nat total; nl]).

(** ** [run] *)

Definition accepted_answers : list string := ["y"; "yes"; "да"; "д"].

Definition warning_message : string := Color_make "Do you want to delete them? [y/n]: " red.

Definition started_message (prefix : string) (key database : option string) (table : string)
  : string :=
  Color_make (cat ["Started a mutation for delete match("; fmt key; ", '^"; prefix;
                   "') in "; fmt database; "."; table]) grey.

(** [not matches] for a value that is a [str] or [None]. *)
Definition falsy (x : option string) : bool :=
  match x with
  | Some s => String.eqb s EmptyString
  | None => true
  end.

Definition run (prefix : string) (key database : option string) (table : string)
    (force_delete await_complete : bool) (fuel : nat) : M unit :=
  if force_delete then
    finally_return
      (try_except (delete_data prefix key database table)
                  (fun error => print (Color_make_error error red)))
      (print (started_message prefix key database table))
  else
    '(message, matches) ← get_data prefix key database table;
    if falsy matches then print message
    else
      print (cat [message; nl; fmt matches]) ;;
      answer ← input warning_message;
      if str_in (lower answer) accepted_answers then
        try_except
          (delete_data prefix key database table ;;
           check_mutations database table await_complete true fuel)
          (fun error => print (Color_make_error error red))
      else
        print (Color_make (cat ["Deletion canceled for the prefix '"; prefix; "'"]) red).

(** ** [main] *)

Record arguments : Type := {
  arg_prefix : string;
  arg_key : option string;
  arg_database : option string;
  arg_table : string;
  arg_checkout_only : bool;
  arg_await_mutation_end : bool;
  arg_force : bool
}.

(** The [clickhouse] section of the configuration file. *)
Record configuration : Type := {
  cfg_database : option string;
  cfg_match_key : option string
}.

Definition table_required : exn :=
  RuntimeError "Table required, but no received. Use --table arg or --help".

Definition prefix_required : exn :=
  RuntimeError "Prefix required, but not received. Use --prefix arg or --help".

Definition flags_conflict : exn :=
  RuntimeError
    "'--force', '--await-mutation-end' and '--checkout-only' can't be passed together.".

Definition is_nil {A} (l : list A) : bool :=
  match l with [] => true | _ => false end.

Definition main (args : arguments) (config : configuration) (fuel : nat) : M unit :=
  let prefixes := split "," (arg_prefix args) in
  let database := py_or (arg_database args) (cfg_database config) in
  let tables := split "," (arg_table args) in
  let match_key := py_or (arg_key args) (cfg_match_key config) in
  let await_mutation_end := if arg_await_mutation_end args then true else false in
  if String.eqb (arg_table args) EmptyString then raise table_required
  else if is_nil prefixes && negb (arg_checkout_only args) then raise prefix_required
  else if (arg_force args && arg_checkout_only args)
          || (arg_await_mutation_end args && arg_force args)
  then raise flags_conflict
  else if arg_checkout_only args then
    for_each tables (fun table => check_mutations database table false false fuel)
  else
    for_each prefixes (fun prefix =>
      for_each tables (fun table =>
        run prefix match_key database table (arg_force args) await_mutation_end fuel)) ;;
    if arg_force args
    then print (cat [rule 3; nl;
                     "For check the mutation status use the argument '--checkout-only' or '-S'"])
    else mret tt.

(** ** The older script, [main.py]

    It shares [Color] and [mutation_status] with the script above; what
    differs is written out here. *)
Module MainPy.

(** What [execute_sql] hands back: the rows under ["data"] or [None],
    or the reply's text. *)
Inductive sql_value : Type :=
  | SRows (rows : list record)
  | SNone
  | SText (s : string).

Definition iter_rows (v : sql_value) : result (list record) :=
  match v with
  | SRows rows => Ok rows
  | SNone | SText _ => Err TypeError
  end.

Definition execute_sql (expression : string) (result_format : result_format)
  : M sql_value := fun w =>
  let w := log (EPost expression) w in
  match replies w with
  | [] => (Raises ConnectionError, w)
  | r :: rest =>
      let w := set_replies rest w in
      if negb (resp_ok r) then (Raises (query_error expression r), w)
      else match result_format with
           | FmtJson =>
               match json r with
               | JsonData rows => (Returns (SRows rows), w)
               | JsonNoData => (Returns SNone, w)
               | JsonInvalid => (Raises ValueError, w)
               end
           | FmtText => (Returns (SText (text r)), w)
           end
  end.

Definition search_query (prefix : string) (key database : option string) (table : string)
  : string :=
  cat ["SELECT DISTINCT "; fmt key; " ";
       "FROM "; fmt database; "."; table; " ";
       "WHERE match(Path, '^"; prefix; "')"].

Definition delete_query (prefix : string) (key database : option string) (table : string)
  : string :=
  cat ["ALTER TABLE "; fmt database; "."; table;
       " DELETE WHERE match ("; fmt key; ", '^"; prefix; "')"].

(** Returns the text of the matches, or [None]. *)
Definition get_data (prefix : string) (key database : option string) (table : string)
  : M (option string) :=
  let query := search_query prefix key database table in
  data ← execute_sql query FmtJson;
  rows ← lift (iter_rows data);
  result ← lift (map_result (fun record => dict_item record (Some "Path")) rows);
  let paths := String.concat nl (map (fun path => "- " +:+ py_str path) result) in
  match result with
  | [] => mret None
  | _ => mret (Some (cat ["Matches found for the prefix '"; prefix; "': "; nl; paths]))
  end.

Definition delete_data (prefix : string) (key database : option string) (table : string)
  : M unit :=
  let query := delete_query prefix key database table in
  execute_sql query FmtText ;; mret tt.

Definition mutations_query (database : option string) (table : string) : string :=
  cat ["SELECT * FROM system.mutations ";
       "WHERE database='"; fmt database; "' AND table='"; table; "'"].

Definition status_of (result : sql_value) : M (nat * nat * nat * nat) :=
  rows ← lift (iter_rows result);
  lift (mutation_status rows).

Fixpoint await_loop (fuel : nat) (query : string) (vars : nat * nat * nat * nat)
  : M (nat * nat * nat * nat) :=
  let '(in_progress, total, completed, failed) := vars in
  if negb (Nat.eqb in_progress 0) && Nat.eqb failed 0 then
    match fuel with
    | O => diverge
    | S fuel' =>
        result ← execute_sql query FmtJson;
        '(in_progress, total, success, failed) ← status_of result;
        sleep ;;
        await_loop fuel' query (in_progress, total, completed, failed)
    end
  else mret vars.

Definition check_mutations (database : option string) (table : string)
    (await_complete pretty : bool) (fuel : nat) : M unit :=
  let query := mutations_query database table in
  result ← execute_sql query FmtJson;
  vars ← status_of result;
  vars ← (if await_complete
          then print (Color_make (nl +:+ "Waiting for the mutation to complete...") grey) ;;
               await_loop fuel query vars
          else mret vars);
  let '(in_progress, total, completed, failed) := vars in
  (if Nat.ltb 0 failed
   then print (Color_make
                 "One of the mutations failed with an error. Use clickhouse-client for details."
                 red)
   else mret tt) ;;
  print (Color_make (cat [nl; "Mutation status for '"; fmt database; "."; table; "'"]) cyan) ;;
  print (rule 40) ;;
  if pretty
  then print (cat ["In Progress: "; str_of_nat in_progress; " "; nl;
                   "Failed: "; str_of_nat failed; nl])
  else print (cat ["In Progress: "; str_of_nat in_progress; " "; nl;
                   "Completed: "; str_of_nat completed; " "; nl;
                   "Failed: "; str_of_nat failed; " "; nl;
                   "Total: "; str_of_nat total; nl]).

Definition run (prefix : string) (key database : option string) (table : string)
    (check_only await_complete : bool) (fuel : nat) : M unit :=
  if check_only then check_mutations database table false false fuel
  else
    result ← get_data prefix key database table;
    if falsy result
    then print (Color_make (cat ["No matches were found for the prefix '"; prefix; "'"]) grey)
    else
      print (cat [nl; Color_make (fmt result) green]) ;;
      answer ← input warning_message;
      if str_in (lower answer) accepted_answers then
        try_except
          (delete_data prefix key database table ;;
           check_mutations database table await_complete true fuel)
          (fun error => print (Color_make_error error red))
      else
        print (Color_make (cat ["Deletion canceled for the prefix '"; prefix; "'"]) red).

Record arguments : Type := {
  arg_prefix : string;
  arg_key : option string;
  arg_database : option string;
  arg_table : string;
  arg_checkout_only : bool;
  arg_await_mutation_end : bool
}.

Definition prefix_required : exn :=
  RuntimeError "Prefix required, but not received. Use --table arg or --help".

Definition main (args : arguments) (config : configuration) (fuel : nat) : M unit :=
  let prefixes := split "," (arg_prefix args) in
  let database := py_or (arg_database args) (cfg_database config) in
  let table := arg_table args in
  let match_key := py_or (arg_key args) (cfg_match_key config) in
  let await_mutation_end := if arg_await_mutation_end args then true else false in
  if String.eqb (arg_table args) EmptyString then raise table_required
  else if is_nil prefixes && negb (arg_checkout_only args) then raise prefix_required
  else if arg_checkout_only args
  then run EmptyString match_key database table true false fuel
  else for_each prefixes (fun prefix =>
         run prefix match_key database table false await_mutation_end fuel).

End MainPy.

(** ** Vocabulary of the specification *)

(** How many records satisfy [P]. *)
Fixpoint count_where (P : record -> bool) (records : list record) : nat :=
  match records with
  | [] => O
  | r :: rest => if P r then S (count_where P rest) else count_where P rest
  end.

(** The record's [parts_to_do] reads as an integer. *)
Definition parts_to_do_parses (r : record) : Prop :=
  exists n, py_int (dict_get r "parts_to_do") = Ok n.

(** The record's [parts_to_do] reads as an integer above zero. *)
Definition parts_to_do_positive (r : record) : bool :=
  match py_int (dict_get r "parts_to_do") with
  | Ok n => 0 <? n
  | Err _ => false
  end.

(** The record's [is_done] is the number one, or [true]. *)
Definition is_done (r : record) : bool :=
  match dict_get r "is_done" with
  | VInt 1 | VBool true => true
  | _ => false
  end.

(** The record's [latest_failed_part] is anything but the empty string
    (a record without the field reads as [None]). *)
Definition has_failed_part (r : record) : bool :=
  match dict_get r "latest_failed_part" with
  | VStr EmptyString => false
  | _ => true
  end.

(** A reply that succeeds and carries [rows] under ["data"]. *)
Definition delivers (r : response) (rows : list record) : Prop :=
  resp_ok r = true /\ json r = JsonData rows.

Definition is_post (e : event) : bool :=
  match e with EPost _ => true | _ => false end.

Definition is_input (e : event) : bool :=
  match e with EInput _ => true | _ => false end.

(** A request that carries a delete statement. *)
Definition is_delete (e : event) : bool :=
  match e with
  | EPost expression => String.prefix "ALTER TABLE " expression
  | _ => false
  end.

Definition count_posts (t : list event) : nat := length (List.filter is_post t).

(** The world after a request [q] that used up the first reply. *)
Definition posted (q : string) (rest : list response) (w : world) : world :=
  set_replies rest (log (EPost q) w).

(** The world after the operator was asked and typed the first answer. *)
Definition asked (rest : list string) (w : world) : world :=
  set_answers rest (log (EInput warning_message) w).

(** The lines [get_data] and [run] print. *)
Definition no_match_message (prefix : string) : string :=
  Color_make (cat ["No matches were found for the prefix '"; prefix; "'"]) grey.

Definition found_message (prefix : string) (count : nat) : string :=
  Color_make (cat [nl; "Matches found for the prefix '"; prefix;
                   "' (unique keys count: "; str_of_nat count; ")"]) green.

Definition matches_text (result : list value) : string :=
  String.concat nl (map (fun path => "- " +:+ py_str path) result).

Definition deleted_line (prefix : string) (key database : option string) (table : string)
  : string :=
  cat [cat ["source="; fmt database; "."; table; " key="; fmt key; ", prefix="; prefix];
       " "; Color_make "- OK" green].

Definition canceled_message (prefix : string) : string :=
  Color_make (cat ["Deletion canceled for the prefix '"; prefix; "'"]) red.

(** [str(error)] of the exception [execute_sql] raises on a failed reply. *)
Definition query_error_text (expression : string) (r : response) : string :=
  cat [nl; "An error occurred with the query: "; expression; ". "; nl;
       "HTTP "; str_of_Z (status_code r); ", Details: "; text r].

(** A reply whose rows [mutation_status] summarizes as [s]. *)
Definition summarizes (r : response) (s : nat * nat * nat * nat) : Prop :=
  exists rows, delivers r rows /\ mutation_status rows = Ok s.

(** The world with [events] appended to its trace. *)
Definition logs (events : list event) (w : world) : world :=
  {| replies := replies w; answers := answers w; today := today w;
     trace := (trace w ++ events)%list |}.

Definition waiting_message : string :=
  Color_make (nl +:+ "Waiting for the mutation to complete...") grey.

(** What [check_mutations] prints once the status is settled. *)
Definition status_lines (database : option string) (table : string) (pretty : bool)
    (vars : nat * nat * nat * nat) : list event :=
  let '(in_progress, total, completed, failed) := vars in
  ((if Nat.ltb 0 failed
    then [EPrint (Color_make
            "One of the mutations failed with an error. Use clickhouse-client for details."
            red)]
    else []) ++
   [EPrint (Color_make (cat [nl; "Mutation status for '"; fmt database; "."; table; "'"])
                       cyan);
    EPrint (rule 40);
    EPrint (if pretty
            then cat ["In Progress: "; str_of_nat in_progress; " "; nl;
                      "Failed: "; str_of_nat failed; nl]
            else cat ["In Progress: "; str_of_nat in_progress; " "; nl;
                      "Completed: "; str_of_nat completed; " "; nl;
                      "Failed: "; str_of_nat failed; " "; nl;
                      "Total: "; str_of_nat total; nl])])%list.

(** Exceptions other than [RuntimeError]. *)
Definition plain (e : exn) : Prop :=
  match e with
  | RuntimeError _ => False
  | _ => True
  end.

(** A computation that only adds to the trace and never raises [bad]. *)
Definition tidy (bad : exn) {A} (m : M A) : Prop :=
  forall w,
    (exists events, trace (snd (m w)) = (trace w ++ events)%list) /\
    (forall e, fst (m w) = Raises e -> e <> bad).

(** A computation whose first event is [e]. *)
Definition opens_with {A} (e : event) (m : M A) : Prop :=
  forall w, exists events, trace (snd (m w)) = (trace w ++ e :: events)%list.

Definition is_print (e : event) : bool :=
  match e with EPrint _ => true | _ => false end.

Definition is_sleep (e : event) : bool :=
  match e with ESleep => true | _ => false end.

(** The requests of a trace, in order. *)
Definition posts_of (t : list event) : list event := List.filter is_post t.

(** A computation that only adds to the trace events that satisfy [P]. *)
Definition emits (P : event -> bool) {A} (m : M A) : Prop :=
  forall w, exists events,
    trace (snd (m w)) = (trace w ++ events)%list /\ forallb P events = true.

(** The last line of a forced batch. *)
Definition force_footer : string :=
  cat [rule 3; nl;
       "For check the mutation status use the argument '--checkout-only' or '-S'"].

(** Whether the next answer of the operator is one of the accepted ones. *)
Definition confirms (w : world) : bool :=
  match answers w with
  | a :: _ => str_in (lower a) accepted_answers
  | [] => false
  end.

(** A reply that shows work in progress and no failure, and one that
    shows no work in progress or a failure. *)
Definition pending (r : response) : Prop :=
  exists in_progress total completed,
    summarizes r (S in_progress, total, completed, O).

Definition resolved (vars : nat * nat * nat * nat) : Prop :=
  let '(in_progress, total, completed, failed) := vars in
  in_progress = O \/ (0 < failed)%nat.

Definition count_sleeps (t : list event) : nat := length (List.filter is_sleep t).

(** Events of a run that only reads: no delete statement, no prompt, no
    sleep. *)
Definition read_only (e : event) : bool :=
  negb (is_delete e) && negb (is_input e) && negb (is_sleep e).

(** A computation that always returns, sends exactly the requests [posts],
    in this order, and does not ask the operator. *)
Definition sends (posts : list event) (m : M unit) : Prop :=
  forall w, exists w' events,
    m w = (Returns tt, w') /\
    trace w' = (trace w ++ events)%list /\
    posts_of events = posts /\
    forallb (fun e => negb (is_input e)) events = true /\
    answers w' = answers w.

(** ** Sample data *)

Definition sample_rows : list record :=
  [ {[ "parts_to_do" := VStr "3"; "is_done" := VInt 0; "latest_failed_part" := VStr EmptyString ]};
    {[ "parts_to_do" := VStr "0"; "is_done" := VInt 1; "latest_failed_part" := VStr EmptyString ]};
    {[ "parts_to_do" := VStr "2"; "is_done" := VInt 0;
       "latest_failed_part" := VStr "20200101_1_1_0" ]} ].

(** A successful reply with [rows] under ["data"], the empty reply to an
    accepted [ALTER], and a reply of a server that rejects a statement. *)
Definition reply_rows (rows : list record) : response :=
  {| status_code := 200; text := "{...}"; json := JsonData rows |}.

Definition reply_accepted : response :=
  {| status_code := 200; text := EmptyString; json := JsonInvalid |}.

Definition reply_rejected : response :=
  {| status_code := 500; text := "Code: 60. DB::Exception: Table db.t does not exist";
     json := JsonInvalid |}.

Definition start (rs : list response) (lines : list string) : world :=
  {| replies := rs; answers := lines; today := "2020-01-01"; trace := [] |}.

Definition key_row (path : string) : record := {[ "Path" := VStr path ]}.

Definition mutation_row (parts_to_do : string) (done : Z) (failed_part : string) : record :=
  {[ "parts_to_do" := VStr parts_to_do; "is_done" := VInt done;
     "latest_failed_part" := VStr failed_part ]}.

Definition sample_args : arguments :=
  {| arg_prefix := "carbon.,stats."; arg_key := Some "Path"; arg_database := Some "graphite";
     arg_table := "data"; arg_checkout_only := false; arg_await_mutation_end := false;
     arg_force := false |}.

Definition sample_config : configuration :=
  {| cfg_database := Some "default"; cfg_match_key := None |}.

(** * Properties *)

Local Open Scope list_scope.

(** ** The status summary *)

Lemma py_eq_one (v : value) : py_eq v (VInt 1) = match v with
                                                 | VInt 1 | VBool true => true
                                                 | _ => false
                                                 end.
Proof.
  destruct v as [ | [] | z | s]; reflexivity.
Qed.

Lemma py_ne_empty (v : value) :
  negb (py_eq v (VStr EmptyString)) = match v with
                                      | VStr EmptyString => false
                                      | _ => true
                                      end.
Proof. destruct v as [ | b | z | [ | c s]]; reflexivity. Qed.

Lemma filter_length_count (P : record -> bool) (l : list record) :
  length (List.filter P l) = count_where P l.
Proof.
  induction l as [ | r l IH]; simpl; [reflexivity | ].
  destruct (P r); simpl; congruence.
Qed.

Lemma count_where_ext (P Q : record -> bool) (l : list record) :
  (forall r, P r = Q r) -> count_where P l = count_where Q l.
Proof.
  intros HPQ. induction l as [ | r l IH]; simpl; [reflexivity | ].
  rewrite HPQ, IH. reflexivity.
Qed.

Lemma parts_pending_count (data : list record) :
  Forall parts_to_do_parses data ->
  exists pending,
    parts_pending data = Ok pending /\
    length pending = count_where parts_to_do_positive data.
Proof.
  induction 1 as [ | r l [n Hn] _ (pending & Hp & Hlen)]; simpl.
  - exists []. split; reflexivity.
  - unfold parts_to_do_positive at 1. rewrite Hn, Hp.
    exists (if 0 <? n then r :: pending else pending). split; [reflexivity | ].
    destruct (0 <? n); simpl; congruence.
Qed.

(** C1. On a list of records whose [parts_to_do] all read as integers,
    [mutation_status] returns the number of records with [parts_to_do]
    above zero, the length of the list, the number of records whose
    [is_done] is one, and the number of records whose
    [latest_failed_part] is not the empty string. *)
Theorem mutation_status_counts (data : list record) :
  Forall parts_to_do_parses data ->
  mutation_status data =
    Ok (count_where parts_to_do_positive data,
        length data,
        count_where is_done data,
        count_where has_failed_part data).
Proof.
  intros Hparse. unfold mutation_status.
  destruct (parts_pending_count data Hparse) as (pending & -> & ->).
  rewrite !filter_length_count.
  f_equal. f_equal; [f_equal | ]; apply count_where_ext; intros r.
  - apply py_eq_one.
  - apply py_ne_empty.
Qed.

Lemma sample_rows_parse : Forall parts_to_do_parses sample_rows.
Proof. repeat constructor; eexists; vm_compute; reflexivity. Qed.

Lemma mutation_status_counts_witness :
  Forall parts_to_do_parses sample_rows /\
  mutation_status sample_rows = Ok (2%nat, 3%nat, 1%nat, 1%nat).
Proof.
  split; [exact sample_rows_parse | ].
  exact (mutation_status_counts sample_rows sample_rows_parse).
Defined.

(** ** Order of the records *)

Lemma count_where_perm (P : record -> bool) (l l' : list record) :
  Permutation l l' -> count_where P l = count_where P l'.
Proof.
  induction 1 as [ | x l l' _ IH | x y l | l l' l'' _ IH1 _ IH2]; simpl.
  - reflexivity.
  - rewrite IH. reflexivity.
  - destruct (P x), (P y); reflexivity.
  - congruence.
Qed.

(** Whether the comprehension over [parts_to_do] raises does not depend
    on the order either, and neither does the length of what it keeps. *)
Lemma parts_pending_perm (l l' : list record) :
  Permutation l l' ->
  length <$> ok_part (parts_pending l) = length <$> ok_part (parts_pending l').
Proof.
  induction 1 as [ | x l l' _ IH | x y l | l l' l'' _ IH1 _ IH2]; simpl.
  - reflexivity.
  - destruct (py_int (dict_get x "parts_to_do")) as [n | e]; [ | reflexivity].
    destruct (parts_pending l) as [p | e], (parts_pending l') as [p' | e'];
      simpl in *; try congruence.
    injection IH as IH. destruct (0 <? n); simpl; congruence.
  - destruct (py_int (dict_get x "parts_to_do")) as [n | e],
             (py_int (dict_get y "parts_to_do")) as [m | e'];
      try reflexivity.
    destruct (parts_pending l) as [p | e]; [ | reflexivity].
    destruct (0 <? n), (0 <? m); reflexivity.
  - congruence.
Qed.

(** C6. [mutation_status] returns the same summary on every permutation
    of a list of records (and raises on one exactly when it raises on the
    other). *)
Theorem mutation_status_perm (data data' : list record) :
  Permutation data data' ->
  ok_part (mutation_status data) = ok_part (mutation_status data').
Proof.
  intros Hperm. unfold mutation_status.
  pose proof (parts_pending_perm _ _ Hperm) as Hp.
  rewrite !filter_length_count.
  rewrite (Permutation_length Hperm).
  rewrite (count_where_perm _ _ _ Hperm).
  rewrite (count_where_perm (fun i => negb _) _ _ Hperm).
  destruct (parts_pending data) as [p | e], (parts_pending data') as [p' | e'];
    simpl in *; try congruence.
Qed.

Lemma mutation_status_perm_witness :
  Permutation sample_rows (rev sample_rows) /\
  ok_part (mutation_status (rev sample_rows)) = Some (2%nat, 3%nat, 1%nat, 1%nat).
Proof.
  split; [apply Permutation_rev | ].
  rewrite <- (mutation_status_perm sample_rows (rev sample_rows) (Permutation_rev _)).
  reflexivity.
Defined.

(** ** Running the script step by step *)

Lemma bind_unfold {A B} (m : M A) (f : A -> M B) (w : world) :
  (m ≫= f) w = match m w with
               | (Returns a, w') => f a w'
               | (Raises e, w') => (Raises e, w')
               | (Diverges, w') => (Diverges, w')
               end.
Proof. reflexivity. Qed.

Lemma bind_returns {A B} (m : M A) (f : A -> M B) (w w' : world) (a : A) :
  m w = (Returns a, w') -> (m ≫= f) w = f a w'.
Proof. intros H. rewrite bind_unfold, H. reflexivity. Qed.

Lemma bind_raises {A B} (m : M A) (f : A -> M B) (w w' : world) (e : exn) :
  m w = (Raises e, w') -> (m ≫= f) w = (Raises e, w').
Proof. intros H. rewrite bind_unfold, H. reflexivity. Qed.

Lemma execute_sql_no_reply q f w :
  replies w = [] ->
  execute_sql q f w = (Raises ConnectionError, log (EPost q) w).
Proof. intros H. unfold execute_sql. simpl. rewrite H. reflexivity. Qed.

Lemma execute_sql_error q f w r rest :
  replies w = r :: rest -> resp_ok r = false ->
  execute_sql q f w = (Raises (query_error q r), posted q rest w).
Proof. intros H Hr. unfold execute_sql. simpl. rewrite H, Hr. reflexivity. Qed.

Lemma execute_sql_rows q w r rest rows :
  replies w = r :: rest -> delivers r rows ->
  execute_sql q FmtJson w = (Returns (SRows rows), posted q rest w).
Proof.
  intros H [Hok Hjson]. unfold execute_sql. simpl. rewrite H, Hok, Hjson. reflexivity.
Qed.

Lemma execute_sql_text q w r rest :
  replies w = r :: rest -> resp_ok r = true ->
  exists v, truthy v = true /\
            execute_sql q FmtText w = (Returns v, posted q rest w).
Proof.
  intros H Hok. unfold execute_sql. simpl. rewrite H, Hok. simpl.
  destruct (String.eqb (text r) EmptyString) eqn:E.
  - exists (SFlag true). split; reflexivity.
  - exists (SText (text r)). split; [simpl; rewrite E | ]; reflexivity.
Qed.

(** *** [get_data] *)

Lemma get_data_error prefix key database table w r rest :
  replies w = r :: rest -> resp_ok r = false ->
  get_data prefix key database table w =
    (Raises (query_error (search_query prefix key database table) r),
     posted (search_query prefix key database table) rest w).
Proof.
  intros H Hr. unfold get_data.
  apply bind_raises. apply execute_sql_error; assumption.
Qed.

Lemma get_data_empty prefix key database table w r rest :
  replies w = r :: rest -> delivers r [] ->
  get_data prefix key database table w =
    (Returns (no_match_message prefix, None),
     posted (search_query prefix key database table) rest w).
Proof.
  intros H Hr. unfold get_data.
  erewrite bind_returns by (eapply execute_sql_rows; eassumption).
  reflexivity.
Qed.

Lemma matches_text_nonempty (result : list value) :
  result <> [] -> falsy (Some (matches_text result)) = false.
Proof.
  destruct result as [ | v [ | v' result]]; [congruence | reflexivity | reflexivity].
Qed.

Lemma get_data_found prefix key database table w r rest rows result :
  replies w = r :: rest -> delivers r rows ->
  map_result (fun record => dict_item record key) rows = Ok result ->
  result <> [] ->
  get_data prefix key database table w =
    (Returns (found_message prefix (length result), Some (matches_text result)),
     posted (search_query prefix key database table) rest w).
Proof.
  intros H Hr Hres Hne. unfold get_data.
  erewrite bind_returns by (eapply execute_sql_rows; eassumption).
  cbv beta. change (lift (iter_rows (SRows rows))) with (mret (M := M) rows).
  rewrite bind_unfold. cbv beta iota delta [mret M_ret].
  rewrite Hres.
  destruct result as [ | v result]; [congruence | reflexivity].
Qed.

(** *** [delete_data] *)

Lemma delete_data_error prefix key database table w r rest :
  replies w = r :: rest -> resp_ok r = false ->
  delete_data prefix key database table w =
    (Raises (query_error (delete_query prefix key database table) r),
     posted (delete_query prefix key database table) rest w).
Proof.
  intros H Hr. unfold delete_data.
  apply bind_raises. apply execute_sql_error; assumption.
Qed.

Lemma delete_data_no_reply prefix key database table w :
  replies w = [] ->
  delete_data prefix key database table w =
    (Raises ConnectionError, log (EPost (delete_query prefix key database table)) w).
Proof.
  intros H. unfold delete_data.
  apply bind_raises. apply execute_sql_no_reply; assumption.
Qed.

Lemma delete_data_ok prefix key database table w r rest :
  replies w = r :: rest -> resp_ok r = true ->
  delete_data prefix key database table w =
    (Returns tt,
     log (EPrint (deleted_line prefix key database table))
         (posted (delete_query prefix key database table) rest w)).
Proof.
  intros H Hr. unfold delete_data.
  destruct (execute_sql_text (delete_query prefix key database table) w r rest H Hr)
    as (v & Hv & Hexec).
  erewrite bind_returns by exact Hexec.
  rewrite Hv. reflexivity.
Qed.

(** *** [run] *)

Lemma run_found prefix key database table await_complete fuel w w1 message matches a rest :
  get_data prefix key database table w = (Returns (message, Some matches), w1) ->
  falsy (Some matches) = false ->
  answers w1 = a :: rest ->
  run prefix key database table false await_complete fuel w =
    (if str_in (lower a) accepted_answers
     then try_except
            (delete_data prefix key database table ;;
             check_mutations database table await_complete true fuel)
            (fun error => print (Color_make_error error red))
     else print (canceled_message prefix))
      (asked rest (log (EPrint (cat [message; nl; matches])) w1)).
Proof.
  intros Hget Hfalsy Hans. unfold run.
  erewrite bind_returns by exact Hget.
  cbv beta iota. rewrite Hfalsy.
  rewrite bind_unfold. unfold print at 1.
  rewrite bind_unfold. unfold input at 1. simpl answers. rewrite Hans.
  reflexivity.
Qed.

(** ** A search without matches *)

(** C7. When the search returns an empty result set, [run] returns after
    the search request and one printed line: it reads no answer from the
    operator and sends no delete statement. *)
Theorem run_no_match_stops prefix key database table await_complete fuel w r rest :
  replies w = r :: rest -> delivers r [] ->
  exists w' events,
    run prefix key database table false await_complete fuel w = (Returns tt, w') /\
    trace w' = trace w ++ events /\
    events = [EPost (search_query prefix key database table);
              EPrint (no_match_message prefix)] /\
    forallb (fun e => negb (is_input e) && negb (is_delete e)) events = true /\
    answers w' = answers w.
Proof.
  intros H Hr. eexists _, _. split; [ | split; [ | split; [reflexivity | split]]].
  - unfold run. erewrite bind_returns by (eapply get_data_empty; eassumption).
    reflexivity.
  - simpl. rewrite <- app_assoc. reflexivity.
  - reflexivity.
  - reflexivity.
Qed.

Lemma run_no_match_stops_witness :
  exists w',
    run "carbon." (Some "Path") (Some "graphite") "data" false true 5
        (start [reply_rows []] ["y"]) = (Returns tt, w') /\
    answers w' = ["y"] /\
    count_posts (trace w') = 1%nat.
Proof.
  destruct (run_no_match_stops "carbon." (Some "Path") (Some "graphite") "data" true 5
              (start [reply_rows []] ["y"]) (reply_rows []) [])
    as (w' & events & Hrun & Htrace & Hev & _ & Hans).
  - reflexivity.
  - split; reflexivity.
  - exists w'. split; [exact Hrun | split; [exact Hans | ]].
    rewrite Htrace, Hev. reflexivity.
Defined.

(** ** A forced delete *)

(** C10. With [force_delete], [run] sends the delete statement and nothing
    else, prints the error when the server rejects the statement, prints
    the started-a-mutation line in every case and returns: it never
    raises, never asks the operator and never looks at the mutations. *)
Theorem run_force_returns prefix key database table await_complete fuel w :
  let statement := delete_query prefix key database table in
  let report :=
    match replies w with
    | [] => []
    | r :: _ =>
        if resp_ok r then [EPrint (deleted_line prefix key database table)]
        else [EPrint (Color_make_error (query_error_text statement r) red)]
    end in
  exists w',
    run prefix key database table true await_complete fuel w = (Returns tt, w') /\
    trace w' = trace w ++ [EPost statement] ++ report
                 ++ [EPrint (started_message prefix key database table)] /\
    answers w' = answers w /\
    replies w' = tail (replies w).
Proof.
  intros statement report. unfold run, finally_return, try_except.
  destruct (replies w) as [ | r rest] eqn:Hw.
  - rewrite (delete_data_no_reply _ _ _ _ _ Hw).
    eexists. split; [reflexivity | ]. simpl.
    rewrite <- app_assoc, Hw. repeat split.
  - destruct (resp_ok r) eqn:Hr.
    + rewrite (delete_data_ok _ _ _ _ _ _ _ Hw Hr).
      eexists. split; [reflexivity | ]. simpl.
      rewrite <- !app_assoc. repeat split.
    + rewrite (delete_data_error _ _ _ _ _ _ _ Hw Hr).
      eexists. split; [reflexivity | ]. simpl.
      rewrite <- !app_assoc. repeat split.
Qed.

(** ** Polling the mutations *)

Lemma log_logs e w : log e w = logs [e] w.
Proof. reflexivity. Qed.

Lemma logs_logs l l' w : logs l' (logs l w) = logs (l ++ l') w.
Proof. unfold logs. simpl. rewrite <- app_assoc. reflexivity. Qed.

Lemma count_posts_app t t' : count_posts (t ++ t') = (count_posts t + count_posts t')%nat.
Proof. unfold count_posts. rewrite List.filter_app, length_app. reflexivity. Qed.

Lemma count_posts_status_lines database table pretty vars :
  count_posts (status_lines database table pretty vars) = O.
Proof. destruct vars as [[[ip t] c] f]. simpl. destruct (Nat.ltb 0 f); reflexivity. Qed.

Lemma status_of_rows rows s w :
  mutation_status rows = Ok s -> status_of (SRows rows) w = (Returns s, w).
Proof. intros H. unfold status_of. simpl. cbv [mbind M_bind mret M_ret]. rewrite H. reflexivity. Qed.

Lemma await_loop_exit fuel q in_progress total completed failed w :
  negb (Nat.eqb in_progress 0) && Nat.eqb failed 0 = false ->
  await_loop fuel q (in_progress, total, completed, failed) w =
    (Returns (in_progress, total, completed, failed), w).
Proof. intros H. destruct fuel; simpl; rewrite H; reflexivity. Qed.

Lemma await_loop_step fuel q in_progress total completed failed w r rest
    in_progress' total' success failed' :
  negb (Nat.eqb in_progress 0) && Nat.eqb failed 0 = true ->
  replies w = r :: rest -> summarizes r (in_progress', total', success, failed') ->
  await_loop (S fuel) q (in_progress, total, completed, failed) w =
    await_loop fuel q (in_progress', total', completed, failed')
               (log ESleep (posted q rest w)).
Proof.
  intros H Hw (rows & Hr & Hs). simpl. rewrite H.
  erewrite bind_returns by (eapply execute_sql_rows; eassumption).
  erewrite bind_returns by (apply status_of_rows, Hs).
  reflexivity.
Qed.

(** The loop never assigns [completed]. *)
Lemma await_loop_keeps_completed fuel q in_progress total completed failed w vars w' :
  await_loop fuel q (in_progress, total, completed, failed) w = (Returns vars, w') ->
  snd (fst vars) = completed.
Proof.
  revert in_progress total failed w.
  induction fuel as [ | fuel IH]; intros in_progress total failed w; simpl;
    destruct (negb (Nat.eqb in_progress 0) && Nat.eqb failed 0).
  - discriminate.
  - intros [= <- _]. reflexivity.
  - rewrite bind_unfold.
    destruct (execute_sql q FmtJson w) as [[result | e | ] w1]; try discriminate.
    rewrite bind_unfold.
    destruct (status_of result w1) as [[[[[ip t] s] f] | e | ] w2]; try discriminate.
    rewrite bind_unfold. unfold sleep at 1. apply IH.
  - intros [= <- _]. reflexivity.
Qed.

Lemma check_mutations_unfold database table await_complete pretty fuel w r rest s :
  replies w = r :: rest -> summarizes r s ->
  let query := mutations_query database table (today w) in
  check_mutations database table await_complete pretty fuel w =
    match (if await_complete
           then print waiting_message ;; await_loop fuel query s
           else mret s) (posted query rest w) with
    | (Returns vars, w') => (Returns tt, logs (status_lines database table pretty vars) w')
    | (Raises e, w') => (Raises e, w')
    | (Diverges, w') => (Diverges, w')
    end.
Proof.
  intros Hw (rows & Hr & Hs) query. unfold check_mutations.
  rewrite bind_unfold. unfold get_today at 1. fold query.
  erewrite bind_returns by (eapply execute_sql_rows; eassumption).
  erewrite bind_returns by (apply status_of_rows, Hs).
  rewrite bind_unfold. fold waiting_message.
  match goal with
  | |- context [(if await_complete then ?a else ?b) ?w0] =>
      destruct ((if await_complete then a else b) w0)
        as [[[[[ip t] c] f] | e | ] w1]; try reflexivity
  end.
  unfold status_lines.
  destruct (Nat.ltb 0 f), pretty; cbv [mbind M_bind mret M_ret print];
    rewrite !log_logs, !logs_logs; reflexivity.
Qed.

(** C2. With [await_complete], when the replies to the first three
    fetches summarize to one mutation in progress and none failed, the
    same again, and none in progress, [check_mutations] returns after
    exactly three requests: the one before the loop and two in it. *)
Theorem check_mutations_three_fetches database table pretty fuel w r1 r2 r3 rest
    total1 completed1 total2 completed2 total3 completed3 failed3 :
  replies w = r1 :: r2 :: r3 :: rest ->
  summarizes r1 (1, total1, completed1, 0)%nat ->
  summarizes r2 (1, total2, completed2, 0)%nat ->
  summarizes r3 (0, total3, completed3, failed3)%nat ->
  (2 <= fuel)%nat ->
  exists w',
    check_mutations database table true pretty fuel w = (Returns tt, w') /\
    replies w' = rest /\
    count_posts (trace w') = (count_posts (trace w) + 3)%nat.
Proof.
  intros Hw H1 H2 H3 Hfuel.
  destruct fuel as [ | [ | fuel]]; [lia | lia | ].
  rewrite (check_mutations_unfold _ _ _ _ _ _ _ _ _ Hw H1).
  rewrite bind_unfold. unfold print at 1.
  erewrite await_loop_step; [ | reflexivity | reflexivity | exact H2].
  erewrite await_loop_step; [ | reflexivity | reflexivity | exact H3].
  rewrite await_loop_exit by reflexivity.
  eexists. split; [reflexivity | ]. split; [reflexivity | ].
  cbn [trace logs log posted set_replies].
  rewrite !count_posts_app, count_posts_status_lines.
  unfold count_posts. simpl. lia.
Qed.

Lemma check_mutations_three_fetches_witness :
  exists w',
    check_mutations (Some "graphite") "data" true true 2
      (start [reply_rows [mutation_row "4" 0 EmptyString];
              reply_rows [mutation_row "1" 0 EmptyString];
              reply_rows [mutation_row "0" 1 EmptyString];
              reply_rejected] []) = (Returns tt, w') /\
    replies w' = [reply_rejected] /\
    count_posts (trace w') = 3%nat.
Proof.
  eapply (check_mutations_three_fetches (Some "graphite") "data" true 2
            (start _ []) _ _ _ [reply_rejected] 1 0 1 0 1 1 0).
  - reflexivity.
  - eexists. split; [split; reflexivity | reflexivity].
  - eexists. split; [split; reflexivity | reflexivity].
  - eexists. split; [split; reflexivity | reflexivity].
  - lia.
Defined.

Lemma count_sleeps_app t t' : count_sleeps (t ++ t') = (count_sleeps t + count_sleeps t')%nat.
Proof. unfold count_sleeps. rewrite List.filter_app, length_app. reflexivity. Qed.

Lemma count_sleeps_status_lines database table pretty vars :
  count_sleeps (status_lines database table pretty vars) = O.
Proof. destruct vars as [[[ip t] c] f]. simpl. destruct (Nat.ltb 0 f); reflexivity. Qed.

Lemma resolved_exit in_progress total completed failed :
  resolved (in_progress, total, completed, failed) ->
  negb (Nat.eqb in_progress 0) && Nat.eqb failed 0 = false.
Proof.
  intros [-> | Hf]; [reflexivity | ].
  destruct failed; [lia | ]. apply andb_false_r.
Qed.

Lemma await_loop_skip query rest (rs : list response) :
  Forall pending rs ->
  forall in_progress total completed (w : world),
    replies w = rs ++ rest ->
    exists in_progress' total' w',
      (forall fuel,
         await_loop (length rs + fuel) query (S in_progress, total, completed, O) w =
         await_loop fuel query (S in_progress', total', completed, O) w') /\
      replies w' = rest /\
      count_posts (trace w') = (count_posts (trace w) + length rs)%nat /\
      count_sleeps (trace w') = (count_sleeps (trace w) + length rs)%nat.
Proof.
  induction 1 as [ | r rs (ip1 & t1 & c1 & Hr) _ IH]; intros in_progress total completed w Hw.
  - exists in_progress, total, w. cbn [length]. repeat split; auto with arith.
  - destruct (IH ip1 t1 completed (log ESleep (posted query (rs ++ rest) w)) eq_refl)
      as (ip' & t' & w' & Hloop & Hrest & Hposts & Hsleeps).
    exists ip', t', w'. split; [ | split; [exact Hrest | split]].
    + intros fuel. cbn [length Nat.add].
      erewrite await_loop_step; [apply Hloop | reflexivity | exact Hw | exact Hr].
    + rewrite Hposts. cbn [trace log posted set_replies length].
      rewrite !count_posts_app. unfold count_posts. simpl. lia.
    + rewrite Hsleeps. cbn [trace log posted set_replies length].
      rewrite !count_sleeps_app. unfold count_sleeps. simpl. lia.
Qed.

Lemma pending_sample : pending (reply_rows [mutation_row "4" 0 EmptyString]).
Proof. exists O, 1%nat, O. eexists. split; [split; reflexivity | reflexivity]. Qed.




(** ** Errors of the server *)

Lemma check_mutations_error database table await_complete pretty fuel w r rest :
  replies w = r :: rest -> resp_ok r = false ->
  let query := mutations_query database table (today w) in
  check_mutations database table await_complete pretty fuel w =
    (Raises (query_error query r), posted query rest w).
Proof.
  intros Hw Hr query. unfold check_mutations.
  rewrite bind_unfold. unfold get_today at 1. fold query.
  apply bind_raises. apply execute_sql_error; assumption.
Qed.

Lemma for_each_cons {A} (x : A) (l : list A) (body : A -> M unit) w w' :
  body x w = (Returns tt, w') ->
  for_each (x :: l) body w = for_each l body w'.
Proof. intros H. simpl. rewrite bind_unfold, H. reflexivity. Qed.

Lemma for_each_app {A} (l l' : list A) (body : A -> M unit) w w' :
  for_each l body w = (Returns tt, w') ->
  for_each (l ++ l') body w = for_each l' body w'.
Proof.
  revert w. induction l as [ | x l IH]; intros w; simpl.
  - intros [= <-]. reflexivity.
  - rewrite !bind_unfold.
    destruct (body x w) as [[[] | e | ] w1]; try discriminate.
    apply IH.
Qed.

Lemma for_each_raises {A} (x : A) (l : list A) (body : A -> M unit) w w' e :
  body x w = (Raises e, w') ->
  for_each (x :: l) body w = (Raises e, w').
Proof. intros H. simpl. rewrite bind_unfold, H. reflexivity. Qed.

Lemma split_nonempty (sep : ascii) (s : string) : split sep s <> [].
Proof.
  destruct s as [ | c s]; simpl; [discriminate | ].
  destruct (Ascii.eqb c sep); [discriminate | ].
  destruct (split sep s); discriminate.
Qed.

Lemma split_not_nil (sep : ascii) (s : string) : is_nil (split sep s) = false.
Proof. pose proof (split_nonempty sep s). destruct (split sep s); [congruence | reflexivity]. Qed.

Lemma main_checkout args config fuel :
  arg_checkout_only args = true -> arg_force args = false ->
  arg_table args <> EmptyString ->
  main args config fuel =
    for_each (split "," (arg_table args))
      (fun table =>
         check_mutations (py_or (arg_database args) (cfg_database config)) table
                         false false fuel).
Proof.
  intros Hc Hf Ht. unfold main.
  apply String.eqb_neq in Ht. rewrite Ht, Hc, Hf.
  rewrite !andb_false_r. reflexivity.
Qed.

Lemma main_batch args config fuel :
  arg_checkout_only args = false -> arg_force args = false ->
  arg_table args <> EmptyString ->
  main args config fuel =
    (for_each (split "," (arg_prefix args)) (fun prefix =>
       for_each (split "," (arg_table args)) (fun table =>
         run prefix (py_or (arg_key args) (cfg_match_key config))
             (py_or (arg_database args) (cfg_database config)) table false
             (if arg_await_mutation_end args then true else false) fuel)) ;;
     mret tt).
Proof.
  intros Hc Hf Ht. unfold main.
  apply String.eqb_neq in Ht. rewrite Ht, Hc, Hf, split_not_nil.
  rewrite !andb_false_r. reflexivity.
Qed.

Lemma run_confirmed prefix key database table await_complete fuel w r rest rows result
    a lines :
  replies w = r :: rest -> delivers r rows ->
  map_result (fun record => dict_item record key) rows = Ok result ->
  result <> [] ->
  answers w = a :: lines -> str_in (lower a) accepted_answers = true ->
  run prefix key database table false await_complete fuel w =
    try_except
      (delete_data prefix key database table ;;
       check_mutations database table await_complete true fuel)
      (fun error => print (Color_make_error error red))
      (asked lines
         (log (EPrint (cat [found_message prefix (length result); nl; matches_text result]))
              (posted (search_query prefix key database table) rest w))).
Proof.
  intros Hw Hr Hres Hne Hans Hyes.
  erewrite run_found.
  - rewrite Hyes. reflexivity.
  - eapply get_data_found; eassumption.
  - apply matches_text_nonempty, Hne.
  - exact Hans.
Qed.

(** C3 (as the script behaves).  In status-only mode the error of a failed
    fetch leaves [main]: the run ends at the first table whose fetch
    fails.  After a confirmed delete the same error, from the first fetch
    or from any fetch inside the waiting loop, is caught by [run], which
    prints it and returns. *)
Theorem polling_error_handling :
  (forall args config fuel w done table todo w1 r rest,
     arg_checkout_only args = true -> arg_force args = false ->
     arg_table args <> EmptyString ->
     split "," (arg_table args) = done ++ table :: todo ->
     let database := py_or (arg_database args) (cfg_database config) in
     for_each done (fun t => check_mutations database t false false fuel) w
       = (Returns tt, w1) ->
     replies w1 = r :: rest -> resp_ok r = false ->
     let query := mutations_query database table (today w1) in
     main args config fuel w = (Raises (query_error query r), posted query rest w1))
  /\
  (forall prefix key database table await_complete fuel w r1 r2 r3 rest rows result a lines,
     replies w = r1 :: r2 :: r3 :: rest ->
     delivers r1 rows ->
     map_result (fun record => dict_item record key) rows = Ok result -> result <> [] ->
     answers w = a :: lines -> str_in (lower a) accepted_answers = true ->
     resp_ok r2 = true -> resp_ok r3 = false ->
     let query := mutations_query database table (today w) in
     exists w',
       run prefix key database table false await_complete fuel w = (Returns tt, w') /\
       replies w' = rest /\
       last (trace w') = Some (EPrint (Color_make_error (query_error_text query r3) red)))
  /\
  (forall prefix key database table fuel w r1 r2 r3 (rs : list response) r4 rest
          rows result a lines,
     replies w = r1 :: r2 :: r3 :: rs ++ r4 :: rest ->
     delivers r1 rows ->
     map_result (fun record => dict_item record key) rows = Ok result -> result <> [] ->
     answers w = a :: lines -> str_in (lower a) accepted_answers = true ->
     resp_ok r2 = true ->
     pending r3 -> Forall pending rs ->
     resp_ok r4 = false ->
     (length rs < fuel)%nat ->
     let query := mutations_query database table (today w) in
     exists w',
       run prefix key database table false true fuel w = (Returns tt, w') /\
       replies w' = rest /\
       last (trace w') = Some (EPrint (Color_make_error (query_error_text query r4) red))).
Proof.
  split; [ | split].
  - intros args config fuel w done table todo w1 r rest Hc Hf Ht Hsplit database Hdone
      Hw1 Hr query.
    rewrite main_checkout by assumption. rewrite Hsplit.
    fold database. rewrite (for_each_app _ _ _ _ _ Hdone).
    apply for_each_raises. apply check_mutations_error; assumption.
  - intros prefix key database table await_complete fuel w r1 r2 r3 rest rows result a lines
      Hw H1 Hres Hne Hans Hyes H2 H3 query.
    erewrite run_confirmed by eassumption.
    unfold try_except. rewrite bind_unfold.
    erewrite delete_data_ok; [ | reflexivity | exact H2].
    erewrite check_mutations_error; [ | reflexivity | exact H3].
    eexists. split; [reflexivity | ]. split; [reflexivity | ].
    cbn [print log trace]. apply last_snoc.
  - intros prefix key database table fuel w r1 r2 r3 rs r4 rest rows result a lines
      Hw H1 Hres Hne Hans Hyes H2 (ip3 & t3 & c3 & H3) Hrs H4 Hfuel query.
    erewrite run_confirmed by eassumption.
    unfold try_except. rewrite bind_unfold.
    erewrite delete_data_ok; [ | reflexivity | exact H2].
    erewrite check_mutations_unfold; [ | reflexivity | exact H3].
    rewrite bind_unfold. unfold print at 1.
    match goal with
    | |- context [await_loop fuel ?q ?vars ?w0] =>
        destruct (await_loop_skip q (r4 :: rest) rs Hrs ip3 t3 c3 w0 eq_refl)
          as (ip' & t' & w1 & Hloop & Hrest & _)
    end.
    replace fuel with (length rs + S (fuel - length rs - 1))%nat by lia.
    rewrite Hloop.
    cbn [await_loop]. cbn [Nat.eqb negb andb].
    erewrite bind_raises; [ | apply execute_sql_error; [exact Hrest | exact H4]].
    eexists. split; [reflexivity | ]. split; [reflexivity | ].
    cbn [print log trace]. apply last_snoc.
Qed.

Lemma polling_error_handling_witness :
  (exists w',
     run "carbon." (Some "Path") (Some "graphite") "data" false false 0
         (start [reply_rows [key_row "carbon.a"]; reply_accepted; reply_rejected] ["Y"])
       = (Returns tt, w') /\
     replies w' = [] /\
     last (trace w') =
       Some (EPrint (Color_make_error
                       (query_error_text
                          (mutations_query (Some "graphite") "data" "2020-01-01")
                          reply_rejected) red))) /\
  (exists w',
     run "carbon." (Some "Path") (Some "graphite") "data" false true 3
         (start [reply_rows [key_row "carbon.a"]; reply_accepted;
                 reply_rows [mutation_row "4" 0 EmptyString];
                 reply_rows [mutation_row "4" 0 EmptyString];
                 reply_rows [mutation_row "4" 0 EmptyString];
                 reply_rejected] ["Y"])
       = (Returns tt, w') /\
     replies w' = [] /\
     last (trace w') =
       Some (EPrint (Color_make_error
                       (query_error_text
                          (mutations_query (Some "graphite") "data" "2020-01-01")
                          reply_rejected) red))).
Proof.
  split.
  - eapply (proj1 (proj2 polling_error_handling)
              "carbon." (Some "Path") (Some "graphite") "data" false 0%nat
              (start [reply_rows [key_row "carbon.a"]; reply_accepted; reply_rejected] ["Y"])
              _ _ _ [] [key_row "carbon.a"] [VStr "carbon.a"] "Y" []).
    + reflexivity.
    + split; reflexivity.
    + reflexivity.
    + discriminate.
    + reflexivity.
    + reflexivity.
    + reflexivity.
    + reflexivity.
  - eapply (proj2 (proj2 polling_error_handling)
              "carbon." (Some "Path") (Some "graphite") "data" 3%nat
              (start _ ["Y"])
              (reply_rows [key_row "carbon.a"]) reply_accepted
              (reply_rows [mutation_row "4" 0 EmptyString])
              [reply_rows [mutation_row "4" 0 EmptyString];
               reply_rows [mutation_row "4" 0 EmptyString]]
              reply_rejected [] [key_row "carbon.a"] [VStr "carbon.a"] "Y" []).
    + reflexivity.
    + split; reflexivity.
    + reflexivity.
    + discriminate.
    + reflexivity.
    + reflexivity.
    + reflexivity.
    + exact pending_sample.
    + repeat constructor; exact pending_sample.
    + reflexivity.
    + simpl. lia.
Defined.

(** C3 (counterexample).  The fetch after a confirmed delete fails, and
    [run] returns all the same: the last thing it does is print the error
    of that fetch. *)
Lemma polling_error_caught_after_delete :
  let query := mutations_query (Some "graphite") "data" "2020-01-01" in
  fst (execute_sql query FmtJson (start [reply_rejected] []))
    = Raises (RuntimeError (query_error_text query reply_rejected)) /\
  exists w',
    run "carbon." (Some "Path") (Some "graphite") "data" false true 3
        (start [reply_rows [key_row "carbon.a"]; reply_accepted; reply_rejected] ["y"])
      = (Returns tt, w') /\
    List.filter is_post (trace w') =
      [EPost (search_query "carbon." (Some "Path") (Some "graphite") "data");
       EPost (delete_query "carbon." (Some "Path") (Some "graphite") "data");
       EPost query] /\
    last (trace w') =
      Some (EPrint (Color_make_error (query_error_text query reply_rejected) red)).
Proof.
  split; [reflexivity | ].
  eexists. split; [vm_compute; reflexivity | ]. split; reflexivity.
Qed.

(** C4 (as the script behaves).  The error of a rejected delete statement
    is caught by [run], which prints it and returns without looking at the
    mutations, so the loop over the tables goes on.  The error of a
    rejected search statement is not caught: it leaves [run], and it
    leaves [main] at whichever pair of the batch it occurs, so that no
    later pair is processed. *)
Theorem search_and_delete_error_handling :
  (forall prefix key database table await_complete fuel w r1 r2 rest rows result a lines,
     replies w = r1 :: r2 :: rest ->
     delivers r1 rows ->
     map_result (fun record => dict_item record key) rows = Ok result -> result <> [] ->
     answers w = a :: lines -> str_in (lower a) accepted_answers = true ->
     resp_ok r2 = false ->
     let statement := delete_query prefix key database table in
     exists w',
       run prefix key database table false await_complete fuel w = (Returns tt, w') /\
       replies w' = rest /\
       trace w' = trace w ++
         [EPost (search_query prefix key database table);
          EPrint (cat [found_message prefix (length result); nl; matches_text result]);
          EInput warning_message;
          EPost statement;
          EPrint (Color_make_error (query_error_text statement r2) red)] /\
       forall tables,
         for_each (table :: tables)
           (fun t => run prefix key database t false await_complete fuel) w =
         for_each tables
           (fun t => run prefix key database t false await_complete fuel) w')
  /\
  (forall prefix key database table await_complete fuel w r rest,
     replies w = r :: rest -> resp_ok r = false ->
     let statement := search_query prefix key database table in
     run prefix key database table false await_complete fuel w =
       (Raises (query_error statement r), posted statement rest w))
  /\
  (forall args config fuel w prefixes_done prefix prefixes_left
          tables_done table tables_left w1 w2 r rest,
     arg_checkout_only args = false -> arg_force args = false ->
     arg_table args <> EmptyString ->
     split "," (arg_prefix args) = prefixes_done ++ prefix :: prefixes_left ->
     split "," (arg_table args) = tables_done ++ table :: tables_left ->
     let key := py_or (arg_key args) (cfg_match_key config) in
     let database := py_or (arg_database args) (cfg_database config) in
     let await_complete := if arg_await_mutation_end args then true else false in
     for_each prefixes_done
       (fun p => for_each (split "," (arg_table args))
                   (fun t => run p key database t false await_complete fuel)) w
       = (Returns tt, w1) ->
     for_each tables_done
       (fun t => run prefix key database t false await_complete fuel) w1
       = (Returns tt, w2) ->
     replies w2 = r :: rest -> resp_ok r = false ->
     let statement := search_query prefix key database table in
     main args config fuel w =
       (Raises (query_error statement r), posted statement rest w2)).
Proof.
  split; [ | split].
  - intros prefix key database table await_complete fuel w r1 r2 rest rows result a lines
      Hw H1 Hres Hne Hans Hyes H2 statement.
    assert (Hrun : run prefix key database table false await_complete fuel w =
                   (Returns tt,
                    log (EPrint (Color_make_error (query_error_text statement r2) red))
                      (posted statement rest
                         (asked lines
                            (log (EPrint (cat [found_message prefix (length result); nl;
                                               matches_text result]))
                               (posted (search_query prefix key database table)
                                       (r2 :: rest) w)))))).
    { erewrite run_confirmed by eassumption.
      unfold try_except. rewrite bind_unfold.
      erewrite delete_data_error; [ | reflexivity | exact H2]. reflexivity. }
    eexists. split; [exact Hrun | ]. split; [reflexivity | ]. split.
    + cbn [trace log posted asked set_replies set_answers].
      rewrite <- !app_assoc. reflexivity.
    + intros tables. apply for_each_cons, Hrun.
  - intros prefix key database table await_complete fuel w r rest Hw Hr statement.
    unfold run. apply bind_raises. apply get_data_error; assumption.
  - intros args config fuel w prefixes_done prefix prefixes_left tables_done table
      tables_left w1 w2 r rest Hc Hf Ht Hprefixes Htables key database await_complete
      Hdone1 Hdone2 Hw2 Hr statement.
    rewrite main_batch by assumption.
    fold key database await_complete.
    apply bind_raises. rewrite Hprefixes.
    rewrite (for_each_app _ _ _ _ _ Hdone1).
    apply for_each_raises. rewrite Htables.
    rewrite (for_each_app _ _ _ _ _ Hdone2).
    apply for_each_raises.
    unfold run. apply bind_raises. apply get_data_error; assumption.
Qed.

Lemma search_and_delete_error_handling_witness :
  (exists w',
     run "carbon." (Some "Path") (Some "graphite") "data" false true 3
         (start [reply_rows [key_row "carbon.a"]; reply_rejected; reply_rows []] ["yes"])
       = (Returns tt, w') /\
     replies w' = [reply_rows []] /\
     count_posts (trace w') = 2%nat) /\
  (exists w',
     main sample_args sample_config 3
          (start [reply_rows []; reply_rejected; reply_rows []] ["y"])
       = (Raises (query_error
                    (search_query "stats." (Some "Path") (Some "graphite") "data")
                    reply_rejected), w') /\
     replies w' = [reply_rows []] /\ count_posts (trace w') = 2%nat).
Proof.
  split.
  - destruct (proj1 search_and_delete_error_handling
                "carbon." (Some "Path") (Some "graphite") "data" true 3%nat
                (start [reply_rows [key_row "carbon.a"]; reply_rejected; reply_rows []]
                       ["yes"])
                (reply_rows [key_row "carbon.a"]) reply_rejected [reply_rows []]
                [key_row "carbon.a"] [VStr "carbon.a"] "yes" [])
      as (w' & Hrun & Hrest & Htrace & _).
    + reflexivity.
    + split; reflexivity.
    + reflexivity.
    + discriminate.
    + reflexivity.
    + reflexivity.
    + reflexivity.
    + exists w'. split; [exact Hrun | split; [exact Hrest | ]].
      rewrite Htrace. reflexivity.
  - eexists. split.
    + eapply (proj2 (proj2 search_and_delete_error_handling) sample_args sample_config 3%nat
                (start [reply_rows []; reply_rejected; reply_rows []] ["y"])
                ["carbon."] "stats." [] [] "data" []).
      * reflexivity.
      * reflexivity.
      * discriminate.
      * reflexivity.
      * reflexivity.
      * vm_compute. reflexivity.
      * reflexivity.
      * reflexivity.
      * reflexivity.
    + split; reflexivity.
Defined.

(** C4 (counterexample).  The server rejects the first search statement
    of a batch of two prefixes: the error leaves [run] and [main], and the
    second prefix is never searched. *)
Lemma search_error_ends_batch :
  let statement := search_query "carbon." (Some "Path") (Some "graphite") "data" in
  let w := start [reply_rejected; reply_rows []] ["y"] in
  run "carbon." (Some "Path") (Some "graphite") "data" false false 3 w
    = (Raises (query_error statement reply_rejected), posted statement [reply_rows []] w) /\
  main sample_args sample_config 3 w
    = (Raises (query_error statement reply_rejected), posted statement [reply_rows []] w).
Proof. split; vm_compute; reflexivity. Qed.

(** ** What every run keeps *)

Lemma py_int_plain v e : py_int v = Err e -> plain e.
Proof.
  destruct v as [ | b | z | s]; simpl; try discriminate.
  - intros [= <-]. exact I.
  - destruct (parse_int s); [discriminate | ]. intros [= <-]. exact I.
Qed.

Lemma parts_pending_plain data e : parts_pending data = Err e -> plain e.
Proof.
  induction data as [ | i data IH]; simpl; [discriminate | ].
  destruct (py_int (dict_get i "parts_to_do")) as [n | e1] eqn:E.
  - destruct (parts_pending data); [discriminate | ].
    intros [= <-]. apply IH. reflexivity.
  - intros [= <-]. eapply py_int_plain, E.
Qed.

Lemma mutation_status_plain data e : mutation_status data = Err e -> plain e.
Proof.
  unfold mutation_status.
  destruct (parts_pending data) eqn:E; [discriminate | ].
  intros [= <-]. eapply parts_pending_plain, E.
Qed.

Lemma iter_rows_plain v e : iter_rows v = Err e -> plain e.
Proof. destruct v; simpl; [discriminate | | ]; intros [= <-]; exact I. Qed.

Lemma iter_rows_py_plain v e : MainPy.iter_rows v = Err e -> plain e.
Proof. destruct v; simpl; [discriminate | | ]; intros [= <-]; exact I. Qed.

Lemma map_dict_item_plain key rows e :
  map_result (fun record => dict_item record key) rows = Err e -> plain e.
Proof.
  induction rows as [ | d rows IH]; simpl; [discriminate | ].
  destruct (dict_item d key) as [v | e1] eqn:E.
  - destruct (map_result _ rows); [discriminate | ].
    intros [= <-]. apply IH. reflexivity.
  - intros [= <-]. unfold dict_item in E.
    destruct key as [k | ]; [destruct (d !! k) | ]; try discriminate;
      injection E as <-; exact I.
Qed.

Create HintDb tidy.

(** The invariant is kept for any error [bad] that is a [RuntimeError]
    and is not one [execute_sql] raises. *)
Section Tidy.

Variable bad : exn.
Hypothesis bad_runtime : ~ plain bad.
Hypothesis bad_not_query_error : forall q r, query_error q r <> bad.

Lemma plain_not_bad e : plain e -> e <> bad.
Proof. intros H ->. exact (bad_runtime H). Qed.

(* Closes the case of a step that adds [events] and raises a plain
   exception or a query error. *)
Ltac tidy_step events :=
  split;
  [ exists events; simpl; rewrite ?app_nil_r; reflexivity
  | simpl; intros ? [=]; subst;
    try (apply plain_not_bad; exact I); try apply bad_not_query_error ].

Lemma tidy_ret {A} (a : A) : tidy bad (mret a).
Proof. intros w. tidy_step (@nil event). Qed.

Lemma tidy_raise {A} (e : exn) : e <> bad -> tidy bad (raise (A := A) e).
Proof. intros He w. tidy_step (@nil event). exact He. Qed.

Lemma tidy_bind {A B} (m : M A) (f : A -> M B) :
  tidy bad m -> (forall a, tidy bad (f a)) -> tidy bad (m ≫= f).
Proof.
  intros Hm Hf w. rewrite bind_unfold.
  destruct (Hm w) as [[ev Hev] Hne].
  destruct (m w) as [[a | e | ] w1]; simpl in *.
  - destruct (Hf a w1) as [[ev' Hev'] Hne']. split; [ | exact Hne'].
    exists (ev ++ ev'). rewrite Hev', Hev, app_assoc. reflexivity.
  - split; [exists ev; exact Hev | ]. intros e' [= <-]. apply Hne. reflexivity.
  - split; [exists ev; exact Hev | discriminate].
Qed.

Lemma tidy_lift {A} (r : result A) :
  (forall e, r = Err e -> plain e) -> tidy bad (lift r).
Proof.
  intros H. destruct r as [a | e]; simpl.
  - apply tidy_ret.
  - apply tidy_raise, plain_not_bad, H. reflexivity.
Qed.

Lemma tidy_print line : tidy bad (print line).
Proof. intros w. tidy_step [EPrint line]. Qed.

Lemma tidy_sleep : tidy bad sleep.
Proof. intros w. tidy_step [ESleep]. Qed.

Lemma tidy_get_today : tidy bad get_today.
Proof. intros w. tidy_step (@nil event). Qed.

Lemma tidy_diverge {A} : tidy bad (diverge (A := A)).
Proof. intros w. tidy_step (@nil event). Qed.

Lemma tidy_input prompt : tidy bad (input prompt).
Proof. intros w. unfold input. destruct (answers w); tidy_step [EInput prompt]. Qed.

Lemma tidy_execute_sql q f : tidy bad (execute_sql q f).
Proof.
  intros w. unfold execute_sql. cbn [replies log].
  destruct (replies w) as [ | r rest]; [tidy_step [EPost q] | ].
  destruct (resp_ok r); cbn [negb].
  - destruct f; [destruct (json r) | destruct (String.eqb (text r) EmptyString)];
      tidy_step [EPost q].
  - tidy_step [EPost q].
Qed.

Lemma tidy_execute_sql_py q f : tidy bad (MainPy.execute_sql q f).
Proof.
  intros w. unfold MainPy.execute_sql. cbn [replies log].
  destruct (replies w) as [ | r rest]; [tidy_step [EPost q] | ].
  destruct (resp_ok r); cbn [negb].
  - destruct f; [destruct (json r) | ]; tidy_step [EPost q].
  - tidy_step [EPost q].
Qed.

Lemma tidy_try_except {A} (body : M A) (handler : string -> M A) :
  tidy bad body -> (forall msg, tidy bad (handler msg)) ->
  tidy bad (try_except body handler).
Proof.
  intros Hb Hh w. unfold try_except.
  destruct (Hb w) as [[ev Hev] Hne].
  destruct (body w) as [[a | [msg | | | | | ] | ] w1]; simpl in *;
    try (split; [exists ev; exact Hev
                | intros ? [=]; subst; apply plain_not_bad; exact I]).
  destruct (Hh msg w1) as [[ev' Hev'] Hne']. split; [ | exact Hne'].
  exists (ev ++ ev'). rewrite Hev', Hev, app_assoc. reflexivity.
Qed.

Lemma tidy_finally_return {A} (body fin : M A) :
  tidy bad body -> tidy bad fin -> tidy bad (finally_return body fin).
Proof.
  intros Hb Hf w. unfold finally_return.
  destruct (Hb w) as [[ev Hev] Hne].
  destruct (body w) as [[a | e | ] w1]; simpl in *;
    try (destruct (Hf w1) as [[ev' Hev'] Hne']; split; [ | exact Hne'];
         exists (ev ++ ev'); rewrite Hev', Hev, app_assoc; reflexivity).
  split; [exists ev; exact Hev | discriminate].
Qed.

Lemma tidy_for_each {A} (l : list A) (body : A -> M unit) :
  (forall x, tidy bad (body x)) -> tidy bad (for_each l body).
Proof.
  intros Hb. induction l as [ | x l IH]; simpl.
  - apply tidy_ret.
  - apply tidy_bind; [apply Hb | intros _; exact IH].
Qed.

#[local] Hint Resolve tidy_ret tidy_print tidy_sleep tidy_get_today tidy_diverge
  tidy_input tidy_execute_sql tidy_execute_sql_py : tidy.

(** *** The functions of [clickhouse_cleaner.py] *)

Lemma tidy_status_of v : tidy bad (status_of v).
Proof.
  unfold status_of. apply tidy_bind.
  - apply tidy_lift, iter_rows_plain.
  - intros rows. apply tidy_lift, mutation_status_plain.
Qed.

Lemma tidy_get_data prefix key database table :
  tidy bad (get_data prefix key database table).
Proof.
  unfold get_data. apply tidy_bind; [auto with tidy | intros data].
  apply tidy_bind; [apply tidy_lift, iter_rows_plain | intros rows].
  apply tidy_bind; [apply tidy_lift, map_dict_item_plain | intros result].
  destruct result; apply tidy_ret.
Qed.

Lemma tidy_delete_data prefix key database table :
  tidy bad (delete_data prefix key database table).
Proof.
  unfold delete_data. apply tidy_bind; [auto with tidy | intros r].
  destruct (truthy r); apply tidy_print.
Qed.

Lemma tidy_await_loop fuel query vars : tidy bad (await_loop fuel query vars).
Proof.
  revert vars. induction fuel as [ | fuel IH]; intros [[[ip t] c] f]; simpl;
    destruct (negb (Nat.eqb ip 0) && Nat.eqb f 0); auto with tidy.
  apply tidy_bind; [auto with tidy | intros result].
  apply tidy_bind; [apply tidy_status_of | intros [[[ip' t'] s'] f']].
  apply tidy_bind; [auto with tidy | intros _]. apply IH.
Qed.

Lemma tidy_check_mutations database table await_complete pretty fuel :
  tidy bad (check_mutations database table await_complete pretty fuel).
Proof.
  unfold check_mutations. apply tidy_bind; [auto with tidy | intros day].
  apply tidy_bind; [auto with tidy | intros result].
  apply tidy_bind; [apply tidy_status_of | intros vars].
  apply tidy_bind.
  - destruct await_complete; [ | auto with tidy].
    apply tidy_bind; [auto with tidy | intros _]. apply tidy_await_loop.
  - intros [[[ip t] c] f].
    apply tidy_bind; [destruct (Nat.ltb 0 f); auto with tidy | intros _].
    apply tidy_bind; [auto with tidy | intros _].
    apply tidy_bind; [auto with tidy | intros _].
    destruct pretty; auto with tidy.
Qed.

Lemma tidy_run prefix key database table force_delete await_complete fuel :
  tidy bad (run prefix key database table force_delete await_complete fuel).
Proof.
  unfold run. destruct force_delete.
  - apply tidy_finally_return; [ | auto with tidy].
    apply tidy_try_except; [apply tidy_delete_data | auto with tidy].
  - apply tidy_bind; [apply tidy_get_data | intros [message matches]].
    destruct (falsy matches); [auto with tidy | ].
    apply tidy_bind; [auto with tidy | intros _].
    apply tidy_bind; [auto with tidy | intros answer].
    destruct (str_in (lower answer) accepted_answers); [ | auto with tidy].
    apply tidy_try_except; [ | auto with tidy].
    apply tidy_bind; [apply tidy_delete_data | intros _].
    apply tidy_check_mutations.
Qed.

(** *** The functions of [main.py] *)

Lemma tidy_status_of_py v : tidy bad (MainPy.status_of v).
Proof.
  unfold MainPy.status_of. apply tidy_bind.
  - apply tidy_lift, iter_rows_py_plain.
  - intros rows. apply tidy_lift, mutation_status_plain.
Qed.

Lemma tidy_get_data_py prefix key database table :
  tidy bad (MainPy.get_data prefix key database table).
Proof.
  unfold MainPy.get_data. apply tidy_bind; [auto with tidy | intros data].
  apply tidy_bind; [apply tidy_lift, iter_rows_py_plain | intros rows].
  apply tidy_bind; [apply tidy_lift, map_dict_item_plain | intros result].
  destruct result; apply tidy_ret.
Qed.

Lemma tidy_delete_data_py prefix key database table :
  tidy bad (MainPy.delete_data prefix key database table).
Proof. unfold MainPy.delete_data. apply tidy_bind; auto with tidy. Qed.

Lemma tidy_await_loop_py fuel query vars : tidy bad (MainPy.await_loop fuel query vars).
Proof.
  revert vars. induction fuel as [ | fuel IH]; intros [[[ip t] c] f]; simpl;
    destruct (negb (Nat.eqb ip 0) && Nat.eqb f 0); auto with tidy.
  apply tidy_bind; [auto with tidy | intros result].
  apply tidy_bind; [apply tidy_status_of_py | intros [[[ip' t'] s'] f']].
  apply tidy_bind; [auto with tidy | intros _]. apply IH.
Qed.

Lemma tidy_check_mutations_py database table await_complete pretty fuel :
  tidy bad (MainPy.check_mutations database table await_complete pretty fuel).
Proof.
  unfold MainPy.check_mutations. apply tidy_bind; [auto with tidy | intros result].
  apply tidy_bind; [apply tidy_status_of_py | intros vars].
  apply tidy_bind.
  - destruct await_complete; [ | auto with tidy].
    apply tidy_bind; [auto with tidy | intros _]. apply tidy_await_loop_py.
  - intros [[[ip t] c] f].
    apply tidy_bind; [destruct (Nat.ltb 0 f); auto with tidy | intros _].
    apply tidy_bind; [auto with tidy | intros _].
    apply tidy_bind; [auto with tidy | intros _].
    destruct pretty; auto with tidy.
Qed.

Lemma tidy_run_py prefix key database table check_only await_complete fuel :
  tidy bad (MainPy.run prefix key database table check_only await_complete fuel).
Proof.
  unfold MainPy.run. destruct check_only; [apply tidy_check_mutations_py | ].
  apply tidy_bind; [apply tidy_get_data_py | intros result].
  destruct (falsy result); [auto with tidy | ].
  apply tidy_bind; [auto with tidy | intros _].
  apply tidy_bind; [auto with tidy | intros answer].
  destruct (str_in (lower answer) accepted_answers); [ | auto with tidy].
  apply tidy_try_except; [ | auto with tidy].
  apply tidy_bind; [apply tidy_delete_data_py | intros _].
  apply tidy_check_mutations_py.
Qed.

(** *** The first step of a computation *)

Lemma opens_bind {A B} (e : event) (m : M A) (f : A -> M B) :
  opens_with e m -> (forall a, tidy bad (f a)) -> opens_with e (m ≫= f).
Proof.
  intros Hm Hf w. rewrite bind_unfold.
  destruct (Hm w) as [ev Hev].
  destruct (m w) as [[a | x | ] w1]; simpl in *; [ | exists ev; exact Hev ..].
  destruct (Hf a w1) as [[ev' Hev'] _].
  exists (ev ++ ev'). rewrite Hev', Hev, <- app_assoc. reflexivity.
Qed.

Lemma opens_for_each {A} (e : event) (x : A) (l : list A) (body : A -> M unit) :
  opens_with e (body x) -> (forall y, tidy bad (body y)) ->
  opens_with e (for_each (x :: l) body).
Proof.
  intros Hx Hb. simpl. apply opens_bind; [exact Hx | intros _].
  apply tidy_for_each, Hb.
Qed.

Lemma opens_execute_sql q f : opens_with (EPost q) (execute_sql q f).
Proof.
  intros w. exists []. unfold execute_sql. cbn [replies log].
  destruct (replies w) as [ | r rest]; [reflexivity | ].
  destruct (resp_ok r); cbn [negb]; [ | reflexivity].
  destruct f; [destruct (json r) | destruct (String.eqb (text r) EmptyString)];
    reflexivity.
Qed.

Lemma opens_execute_sql_py q f : opens_with (EPost q) (MainPy.execute_sql q f).
Proof.
  intros w. exists []. unfold MainPy.execute_sql. cbn [replies log].
  destruct (replies w) as [ | r rest]; [reflexivity | ].
  destruct (resp_ok r); cbn [negb]; [ | reflexivity].
  destruct f; [destruct (json r) | ]; reflexivity.
Qed.

Lemma opens_run prefix key database table await_complete fuel :
  opens_with (EPost (search_query prefix key database table))
             (run prefix key database table false await_complete fuel).
Proof.
  unfold run, get_data.
  apply opens_bind; [ | intros [message matches]].
  - apply opens_bind; [apply opens_execute_sql | intros data].
    apply tidy_bind; [apply tidy_lift, iter_rows_plain | intros rows].
    apply tidy_bind; [apply tidy_lift, map_dict_item_plain | intros result].
    destruct result; apply tidy_ret.
  - destruct (falsy matches); [auto with tidy | ].
    apply tidy_bind; [auto with tidy | intros _].
    apply tidy_bind; [auto with tidy | intros answer].
    destruct (str_in (lower answer) accepted_answers); [ | auto with tidy].
    apply tidy_try_except; [ | auto with tidy].
    apply tidy_bind; [apply tidy_delete_data | intros _].
    apply tidy_check_mutations.
Qed.

Lemma opens_run_py prefix key database table await_complete fuel :
  opens_with (EPost (MainPy.search_query prefix key database table))
             (MainPy.run prefix key database table false await_complete fuel).
Proof.
  unfold MainPy.run, MainPy.get_data.
  apply opens_bind; [ | intros result].
  - apply opens_bind; [apply opens_execute_sql_py | intros data].
    apply tidy_bind; [apply tidy_lift, iter_rows_py_plain | intros rows].
    apply tidy_bind; [apply tidy_lift, map_dict_item_plain | intros result].
    destruct result; apply tidy_ret.
  - destruct (falsy result); [auto with tidy | ].
    apply tidy_bind; [auto with tidy | intros _].
    apply tidy_bind; [auto with tidy | intros answer].
    destruct (str_in (lower answer) accepted_answers); [ | auto with tidy].
    apply tidy_try_except; [ | auto with tidy].
    apply tidy_bind; [apply tidy_delete_data_py | intros _].
    apply tidy_check_mutations_py.
Qed.

End Tidy.

Lemma not_plain_runtime msg : ~ plain (RuntimeError msg).
Proof. intros H. exact H. Qed.

Lemma query_error_not_prefix_required q r : query_error q r <> prefix_required.
Proof. discriminate. Qed.

Lemma query_error_not_prefix_required_py q r : query_error q r <> MainPy.prefix_required.
Proof. discriminate. Qed.

Lemma tidy_main args config fuel : tidy prefix_required (main args config fuel).
Proof.
  pose proof (not_plain_runtime
                "Prefix required, but not received. Use --prefix arg or --help") as Hbad.
  pose proof query_error_not_prefix_required as Hq.
  unfold main. rewrite split_not_nil. cbn [andb].
  destruct (String.eqb (arg_table args) EmptyString); [apply tidy_raise; discriminate | ].
  destruct (arg_force args && arg_checkout_only args
            || arg_await_mutation_end args && arg_force args);
    [apply tidy_raise; discriminate | ].
  destruct (arg_checkout_only args).
  - apply tidy_for_each. intros table.
    apply tidy_check_mutations; assumption.
  - apply tidy_bind.
    + apply tidy_for_each. intros prefix.
      apply tidy_for_each. intros table.
      apply tidy_run; assumption.
    + intros _. destruct (arg_force args); [apply tidy_print | apply tidy_ret].
Qed.

Lemma tidy_main_py args config fuel :
  tidy MainPy.prefix_required (MainPy.main args config fuel).
Proof.
  pose proof (not_plain_runtime
                "Prefix required, but not received. Use --table arg or --help") as Hbad.
  pose proof query_error_not_prefix_required_py as Hq.
  unfold MainPy.main. rewrite split_not_nil. cbn [andb].
  destruct (String.eqb (MainPy.arg_table args) EmptyString);
    [apply tidy_raise; discriminate | ].
  destruct (MainPy.arg_checkout_only args).
  - apply tidy_run_py; assumption.
  - apply tidy_for_each. intros prefix.
    apply tidy_run_py; assumption.
Qed.

(** ** The checks of [main] *)

(** C8 (as the script behaves).  [--force] together with
    [--checkout-only] or with [--await-mutation-end] makes [main] raise
    before anything is sent or printed.  [--checkout-only] without
    [--force] is accepted, with or without [--await-mutation-end]: [main]
    then reports the mutations of every table and does not wait. *)
Theorem main_flag_checks args config fuel :
  (arg_force args = true ->
   arg_checkout_only args = true \/ arg_await_mutation_end args = true ->
   forall w,
     main args config fuel w =
       (Raises (if String.eqb (arg_table args) EmptyString
                then table_required else flags_conflict), w))
  /\
  (arg_checkout_only args = true -> arg_force args = false ->
   arg_table args <> EmptyString ->
   main args config fuel =
     for_each (split "," (arg_table args))
       (fun table =>
          check_mutations (py_or (arg_database args) (cfg_database config)) table
                          false false fuel)).
Proof.
  split.
  - intros Hf Hor w. unfold main. rewrite split_not_nil, Hf. cbn [andb].
    destruct (String.eqb (arg_table args) EmptyString); [reflexivity | ].
    destruct Hor as [-> | ->]; [reflexivity | ].
    rewrite orb_true_r. reflexivity.
  - apply main_checkout.
Qed.

Lemma main_flag_checks_witness :
  let args := {| arg_prefix := "carbon."; arg_key := None; arg_database := None;
                 arg_table := "data"; arg_checkout_only := false;
                 arg_await_mutation_end := true; arg_force := true |} in
  main args sample_config 3 (start [reply_accepted] [])
    = (Raises flags_conflict, start [reply_accepted] []).
Proof.
  intros args.
  apply (proj1 (main_flag_checks args sample_config 3)).
  - reflexivity.
  - right. reflexivity.
Defined.

(** C8 (counterexample).  [--checkout-only] with [--await-mutation-end]
    and without [--force] raises nothing: [main] sends the status query and
    prints the report. *)
Lemma checkout_with_await_is_accepted :
  let args := {| arg_prefix := EmptyString; arg_key := None; arg_database := None;
                 arg_table := "data"; arg_checkout_only := true;
                 arg_await_mutation_end := true; arg_force := false |} in
  exists w',
    main args sample_config 3 (start [reply_rows [mutation_row "4" 0 EmptyString]] [])
      = (Returns tt, w') /\
    List.filter is_post (trace w') =
      [EPost (mutations_query (Some "default") "data" "2020-01-01")].
Proof.
  intros args. eexists. split; [vm_compute; reflexivity | reflexivity].
Qed.

(** ** The prefix list *)

Lemma main_py_batch args config fuel :
  MainPy.arg_checkout_only args = false -> MainPy.arg_table args <> EmptyString ->
  MainPy.main args config fuel =
    for_each (split "," (MainPy.arg_prefix args)) (fun prefix =>
      MainPy.run prefix (py_or (MainPy.arg_key args) (cfg_match_key config))
                 (py_or (MainPy.arg_database args) (cfg_database config))
                 (MainPy.arg_table args) false
                 (if MainPy.arg_await_mutation_end args then true else false) fuel).
Proof.
  intros Hc Ht. unfold MainPy.main.
  apply String.eqb_neq in Ht. rewrite Ht, Hc, split_not_nil. reflexivity.
Qed.

(** C9. [split] never yields the empty list, so neither script's [main]
    ever raises its prefix-required error; with the empty prefix, outside
    the status-only and forced modes, the first thing [main] does is
    search (the first table) with the pattern ['^']. *)
Theorem prefix_required_unreachable :
  (forall s, split "," s <> []) /\
  (forall args config fuel w,
     fst (main args config fuel w) <> Raises prefix_required) /\
  (forall args config fuel w,
     fst (MainPy.main args config fuel w) <> Raises MainPy.prefix_required) /\
  (forall args config fuel w,
     arg_prefix args = EmptyString ->
     arg_checkout_only args = false -> arg_force args = false ->
     arg_table args <> EmptyString ->
     let key := py_or (arg_key args) (cfg_match_key config) in
     let database := py_or (arg_database args) (cfg_database config) in
     exists table tables events,
       split "," (arg_table args) = table :: tables /\
       search_query EmptyString key database table =
         cat ["SELECT DISTINCT "; fmt key; " FROM "; fmt database; "."; table;
              " WHERE match("; fmt key; ", '^')"] /\
       trace (snd (main args config fuel w)) =
         trace w ++ EPost (search_query EmptyString key database table) :: events) /\
  (forall args config fuel w,
     MainPy.arg_prefix args = EmptyString ->
     MainPy.arg_checkout_only args = false ->
     MainPy.arg_table args <> EmptyString ->
     let key := py_or (MainPy.arg_key args) (cfg_match_key config) in
     let database := py_or (MainPy.arg_database args) (cfg_database config) in
     let table := MainPy.arg_table args in
     exists events,
       MainPy.search_query EmptyString key database table =
         cat ["SELECT DISTINCT "; fmt key; " FROM "; fmt database; "."; table;
              " WHERE match(Path, '^')"] /\
       trace (snd (MainPy.main args config fuel w)) =
         trace w ++ EPost (MainPy.search_query EmptyString key database table) :: events).
Proof.
  pose proof (not_plain_runtime
                "Prefix required, but not received. Use --prefix arg or --help") as Hbad.
  pose proof query_error_not_prefix_required as Hq.
  split; [apply split_nonempty | split; [ | split; [ | split]]].
  - intros args config fuel w H.
    exact (proj2 (tidy_main args config fuel w) _ H eq_refl).
  - intros args config fuel w H.
    exact (proj2 (tidy_main_py args config fuel w) _ H eq_refl).
  - intros args config fuel w Hp Hc Hf Ht key database.
    destruct (split "," (arg_table args)) as [ | table tables] eqn:Hsplit;
      [exfalso; exact (split_nonempty _ _ Hsplit) | ].
    assert (Hopens : opens_with (EPost (search_query EmptyString key database table))
                                (main args config fuel)).
    { rewrite main_batch by assumption. rewrite Hp, Hsplit.
      apply (opens_bind prefix_required); [ | intros _; apply tidy_ret].
      change (split "," EmptyString) with [EmptyString].
      apply (opens_for_each prefix_required).
      - apply (opens_for_each prefix_required).
        + apply (opens_run prefix_required); assumption.
        + intros t. apply tidy_run; assumption.
      - intros prefix. apply tidy_for_each. intros t. apply tidy_run; assumption. }
    destruct (Hopens w) as [events Hev].
    exists table, tables, events. split; [reflexivity | ]. split; [reflexivity | exact Hev].
  - intros args config fuel w Hp Hc Ht key database table.
    assert (Hopens : opens_with (EPost (MainPy.search_query EmptyString key database table))
                                (MainPy.main args config fuel)).
    { rewrite main_py_batch by assumption. rewrite Hp.
      change (split "," EmptyString) with [EmptyString].
      apply (opens_for_each prefix_required).
      - apply (opens_run_py prefix_required); assumption.
      - intros prefix. apply tidy_run_py; assumption. }
    destruct (Hopens w) as [events Hev].
    exists events. split; [reflexivity | exact Hev].
Qed.

Lemma prefix_required_unreachable_witness :
  let args := {| arg_prefix := EmptyString; arg_key := Some "Path"; arg_database := None;
                 arg_table := "data,data_reverse"; arg_checkout_only := false;
                 arg_await_mutation_end := false; arg_force := false |} in
  exists table tables events,
    split "," (arg_table args) = table :: tables /\
    search_query EmptyString (Some "Path") (Some "default") table =
      cat ["SELECT DISTINCT "; "Path"; " FROM "; "default"; "."; table;
           " WHERE match("; "Path"; ", '^')"] /\
    trace (snd (main args sample_config 3 (start [reply_rows []; reply_rows []] []))) =
      EPost (search_query EmptyString (Some "Path") (Some "default") table) :: events.
Proof.
  intros args.
  apply (proj1 (proj2 (proj2 (proj2 prefix_required_unreachable))) args sample_config 3%nat
           (start [reply_rows []; reply_rows []] [])).
  - reflexivity.
  - reflexivity.
  - reflexivity.
  - discriminate.
Defined.


(** * Further properties *)

(** ** More on the status summary *)

Lemma parts_pending_length (data pending : list record) :
  parts_pending data = Ok pending -> (length pending <= length data)%nat.
Proof.
  revert pending. induction data as [ | r data IH]; simpl; intros pending.
  - intros [= <-]. reflexivity.
  - destruct (py_int (dict_get r "parts_to_do")) as [n | e]; [ | discriminate].
    destruct (parts_pending data) as [l | e]; [ | discriminate].
    intros [= <-]. specialize (IH l eq_refl).
    destruct (0 <? n); simpl; lia.
Qed.

(** X1. Whatever [mutation_status] returns, the second component is the
    number of rows and none of the three counts exceeds it. *)
Theorem mutation_status_bounds (data : list record) (in_progress total completed failed : nat) :
  mutation_status data = Ok (in_progress, total, completed, failed) ->
  total = length data /\
  (in_progress <= total)%nat /\ (completed <= total)%nat /\ (failed <= total)%nat.
Proof.
  unfold mutation_status.
  destruct (parts_pending data) as [pending | e] eqn:E; [ | discriminate].
  intros [= <- <- <- <-].
  split; [reflexivity | ]. split; [eapply parts_pending_length, E | ].
  split; apply List.filter_length_le.
Qed.

Lemma mutation_status_bounds_witness :
  (3 = length sample_rows /\ 2 <= 3 /\ 1 <= 3 /\ 1 <= 3)%nat.
Proof.
  apply (mutation_status_bounds sample_rows 2 3 1 1). reflexivity.
Defined.

Lemma parts_pending_app (a b pa pb : list record) :
  parts_pending a = Ok pa -> parts_pending b = Ok pb ->
  parts_pending (a ++ b) = Ok (pa ++ pb).
Proof.
  revert pa. induction a as [ | r a IH]; simpl; intros pa.
  - intros [= <-] Hb. exact Hb.
  - destruct (py_int (dict_get r "parts_to_do")) as [n | e]; [ | discriminate].
    destruct (parts_pending a) as [l | e]; [ | discriminate].
    intros [= <-] Hb. rewrite (IH l eq_refl Hb).
    destruct (0 <? n); reflexivity.
Qed.

(** X2. The summary of two lists put together is the sum of their
    summaries, component by component. *)
Theorem mutation_status_app (a b : list record) (i1 t1 c1 f1 i2 t2 c2 f2 : nat) :
  mutation_status a = Ok (i1, t1, c1, f1) ->
  mutation_status b = Ok (i2, t2, c2, f2) ->
  mutation_status (a ++ b) = Ok (i1 + i2, t1 + t2, c1 + c2, f1 + f2)%nat.
Proof.
  unfold mutation_status.
  destruct (parts_pending a) as [pa | e] eqn:Ea; [ | discriminate].
  destruct (parts_pending b) as [pb | e] eqn:Eb; [ | discriminate].
  intros [= <- <- <- <-] [= <- <- <- <-].
  rewrite (parts_pending_app _ _ _ _ Ea Eb).
  rewrite !List.filter_app, !length_app. reflexivity.
Qed.

Lemma mutation_status_app_witness :
  mutation_status (sample_rows ++ rev sample_rows) = Ok (4, 6, 2, 2)%nat.
Proof.
  apply (mutation_status_app sample_rows (rev sample_rows) 2 3 1 1 2 3 1 1); reflexivity.
Defined.

Lemma parts_pending_first_error (good rest : list record) (r : record) (e : exn) :
  Forall parts_to_do_parses good ->
  py_int (dict_get r "parts_to_do") = Err e ->
  parts_pending (good ++ r :: rest) = Err e.
Proof.
  intros Hgood Hr. induction Hgood as [ | x good [n Hn] _ IH]; simpl.
  - rewrite Hr. reflexivity.
  - rewrite Hn, IH. reflexivity.
Qed.

(** X3. [mutation_status] raises as soon as one row has a [parts_to_do]
    that [int] rejects, and what it raises is the exception of the first
    such row: a [TypeError] when the field is missing, a [ValueError] when
    it is a string that is not a number. *)
Theorem mutation_status_first_error (good rest : list record) (r : record) :
  Forall parts_to_do_parses good ->
  ~ parts_to_do_parses r ->
  exists e,
    py_int (dict_get r "parts_to_do") = Err e /\
    mutation_status (good ++ r :: rest) = Err e /\
    (r !! "parts_to_do" = None -> e = TypeError) /\
    (forall s, r !! "parts_to_do" = Some (VStr s) -> e = ValueError).
Proof.
  intros Hgood Hr.
  destruct (py_int (dict_get r "parts_to_do")) as [n | e] eqn:E.
  - exfalso. apply Hr. exists n. exact E.
  - exists e. split; [reflexivity | ]. split; [ | split].
    + unfold mutation_status.
      rewrite (parts_pending_first_error good rest r e Hgood E). reflexivity.
    + intros Hnone. unfold dict_get in E. rewrite Hnone in E.
      simpl in E. congruence.
    + intros s Hs. unfold dict_get in E. rewrite Hs in E. simpl in E.
      destruct (parse_int s); congruence.
Qed.

Lemma mutation_status_first_error_witness :
  exists e,
    mutation_status (sample_rows ++ [mutation_row "three" 0 EmptyString]) = Err e /\
    e = ValueError.
Proof.
  destruct (mutation_status_first_error sample_rows [] (mutation_row "three" 0 EmptyString))
    as (e & _ & Hstatus & _ & Hvalue).
  - exact sample_rows_parse.
  - intros [n Hn]. vm_compute in Hn. discriminate Hn.
  - exists e. split; [exact Hstatus | ]. apply (Hvalue "three"). reflexivity.
Defined.

(** ** One statement, one request *)

Lemma execute_sql_world (expression : string) (f : result_format) (w : world) :
  let w' := snd (execute_sql expression f w) in
  trace w' = trace w ++ [EPost expression] /\
  replies w' = tail (replies w) /\
  answers w' = answers w /\
  today w' = today w.
Proof.
  unfold execute_sql. cbn [replies log].
  destruct (replies w) as [ | r rest] eqn:Hw; [cbn; rewrite Hw; auto | ].
  destruct (resp_ok r); cbn [negb]; [ | cbn; auto].
  destruct f; [destruct (json r) | destruct (String.eqb (text r) EmptyString)];
    cbn; auto.
Qed.

(** X4. Every call of [execute_sql] sends exactly one request and uses up
    exactly one reply, whether it returns or raises: nothing is retried,
    nothing is printed and the operator is not asked. *)
Theorem execute_sql_one_request (expression : string) (f : result_format) (w : world) :
  let w' := snd (execute_sql expression f w) in
  trace w' = trace w ++ [EPost expression] /\
  replies w' = tail (replies w) /\
  answers w' = answers w /\
  today w' = today w.
Proof. exact (execute_sql_world expression f w). Qed.

(** X5. [delete_data] has three outcomes.  Without a reply the connection
    error leaves it; a rejected statement raises the query error; any
    accepted statement, also one answered with an empty body, is reported
    with the OK line.  The line for a failed delete is never printed. *)
Theorem delete_data_outcomes prefix key database table (w : world) :
  let statement := delete_query prefix key database table in
  delete_data prefix key database table w =
    match replies w with
    | [] => (Raises ConnectionError, log (EPost statement) w)
    | r :: rest =>
        if resp_ok r
        then (Returns tt,
              log (EPrint (deleted_line prefix key database table))
                  (posted statement rest w))
        else (Raises (query_error statement r), posted statement rest w)
    end.
Proof.
  intros statement. destruct (replies w) as [ | r rest] eqn:Hw.
  - apply delete_data_no_reply, Hw.
  - destruct (resp_ok r) eqn:Hr.
    + eapply delete_data_ok; eassumption.
    + eapply delete_data_error; eassumption.
Qed.

(** ** Results the search cannot read *)

Lemma map_dict_item_missing key (rows : list record) :
  Exists (fun row => dict_item row key = Err KeyError) rows ->
  map_result (fun row => dict_item row key) rows = Err KeyError.
Proof.
  induction 1 as [row rows Hrow | row rows _ IH]; simpl.
  - rewrite Hrow. reflexivity.
  - rewrite IH. destruct (dict_item row key) as [v | e] eqn:E; [reflexivity | ].
    unfold dict_item in E.
    destruct key as [k | ]; [destruct (row !! k) | ]; congruence.
Qed.

(** X6. When a row of the search result has no entry for the key (as
    every row has when no key is configured and [key] is [None]), the
    [KeyError] leaves [get_data] and [run]: nothing is printed, the
    operator is not asked and no delete statement is sent. *)
Theorem run_missing_key prefix key database table await_complete fuel w r rest rows :
  replies w = r :: rest -> delivers r rows ->
  Exists (fun row => dict_item row key = Err KeyError) rows ->
  let statement := search_query prefix key database table in
  get_data prefix key database table w = (Raises KeyError, posted statement rest w) /\
  run prefix key database table false await_complete fuel w =
    (Raises KeyError, posted statement rest w).
Proof.
  intros Hw Hr Hmiss statement.
  assert (Hget : get_data prefix key database table w =
                 (Raises KeyError, posted statement rest w)).
  { unfold get_data.
    erewrite bind_returns by (eapply execute_sql_rows; eassumption).
    cbv beta. change (lift (iter_rows (SRows rows))) with (mret (M := M) rows).
    rewrite bind_unfold. cbv beta iota delta [mret M_ret].
    rewrite (map_dict_item_missing key rows Hmiss). reflexivity. }
  split; [exact Hget | ].
  unfold run. apply bind_raises, Hget.
Qed.

Lemma run_missing_key_witness :
  run "carbon." None (Some "graphite") "data" false false 0
      (start [reply_rows [key_row "carbon.a"]] ["y"])
    = (Raises KeyError,
       posted (search_query "carbon." None (Some "graphite") "data") []
              (start [reply_rows [key_row "carbon.a"]] ["y"])).
Proof.
  apply (run_missing_key "carbon." None (Some "graphite") "data" false 0
           (start [reply_rows [key_row "carbon.a"]] ["y"])
           (reply_rows [key_row "carbon.a"]) [] [key_row "carbon.a"]).
  - reflexivity.
  - split; reflexivity.
  - constructor. reflexivity.
Defined.

(** X7. A successful reply whose JSON has no ["data"] makes [execute_sql]
    return [True], which [get_data] cannot iterate: a [TypeError] leaves
    [get_data] and [run].  A body that is not JSON raises the decoding
    error ([ValueError]) the same way. *)
Theorem run_unreadable_reply prefix key database table await_complete fuel w r rest :
  replies w = r :: rest -> resp_ok r = true ->
  (forall rows, json r <> JsonData rows) ->
  let statement := search_query prefix key database table in
  let e := match json r with JsonInvalid => ValueError | _ => TypeError end in
  get_data prefix key database table w = (Raises e, posted statement rest w) /\
  run prefix key database table false await_complete fuel w =
    (Raises e, posted statement rest w).
Proof.
  intros Hw Hr Hjson statement e.
  assert (Hget : get_data prefix key database table w = (Raises e, posted statement rest w)).
  { unfold get_data, e. rewrite bind_unfold.
    unfold execute_sql at 1. cbn [replies log]. rewrite Hw, Hr. cbn [negb].
    destruct (json r) as [rows | | ]; [exfalso; exact (Hjson rows eq_refl) | | ];
      reflexivity. }
  split; [exact Hget | ].
  unfold run. apply bind_raises, Hget.
Qed.

Lemma run_unreadable_reply_witness :
  run "carbon." (Some "Path") (Some "graphite") "data" false false 0
      (start [reply_accepted] ["y"])
    = (Raises ValueError,
       posted (search_query "carbon." (Some "Path") (Some "graphite") "data") []
              (start [reply_accepted] ["y"])).
Proof.
  apply (run_unreadable_reply "carbon." (Some "Path") (Some "graphite") "data" false 0
           (start [reply_accepted] ["y"]) reply_accepted []).
  - reflexivity.
  - reflexivity.
  - discriminate.
Defined.

(** ** The confirmation *)

Lemma get_data_world prefix key database table (w : world) :
  let w' := snd (get_data prefix key database table w) in
  trace w' = trace w ++ [EPost (search_query prefix key database table)] /\
  replies w' = tail (replies w) /\
  answers w' = answers w.
Proof.
  pose proof (execute_sql_world (search_query prefix key database table) FmtJson w) as H.
  unfold get_data. rewrite bind_unfold.
  destruct (execute_sql (search_query prefix key database table) FmtJson w)
    as [[data | e | ] w1]; cbn [snd] in *; [ | tauto | tauto].
  destruct data as [rows | s | b]; cbn; [ | tauto | tauto].
  cbv [mbind M_bind mret M_ret].
  destruct (map_result (fun record => dict_item record key) rows) as [result | e];
    cbn; [ | tauto].
  destruct result; cbn; tauto.
Qed.

(** X8. When matches are found and the operator's answer is not one of
    the accepted ones, [run] prints that the deletion is canceled and
    returns: the search is its only request. *)
Theorem run_declined prefix key database table await_complete fuel w r rest rows result
    a lines :
  replies w = r :: rest -> delivers r rows ->
  map_result (fun record => dict_item record key) rows = Ok result -> result <> [] ->
  answers w = a :: lines -> str_in (lower a) accepted_answers = false ->
  exists w',
    run prefix key database table false await_complete fuel w = (Returns tt, w') /\
    trace w' = trace w ++
      [EPost (search_query prefix key database table);
       EPrint (cat [found_message prefix (length result); nl; matches_text result]);
       EInput warning_message;
       EPrint (canceled_message prefix)] /\
    replies w' = rest /\ answers w' = lines.
Proof.
  intros Hw Hr Hres Hne Hans Hno.
  erewrite run_found;
    [ | eapply get_data_found; eassumption | apply matches_text_nonempty, Hne | exact Hans].
  rewrite Hno. eexists. split; [reflexivity | ].
  cbn [print trace log posted asked set_replies set_answers replies answers fst snd].
  rewrite <- !app_assoc. repeat split.
Qed.

Lemma run_declined_witness :
  exists w',
    run "carbon." (Some "Path") (Some "graphite") "data" false true 3
        (start [reply_rows [key_row "carbon.a"]; reply_accepted] ["no"; "y"])
      = (Returns tt, w') /\
    replies w' = [reply_accepted] /\ answers w' = ["y"].
Proof.
  destruct (run_declined "carbon." (Some "Path") (Some "graphite") "data" true 3
              (start [reply_rows [key_row "carbon.a"]; reply_accepted] ["no"; "y"])
              (reply_rows [key_row "carbon.a"]) [reply_accepted]
              [key_row "carbon.a"] [VStr "carbon.a"] "no" ["y"])
    as (w' & Hrun & _ & Hrest & Hans); try reflexivity.
  - split; reflexivity.
  - discriminate.
  - exists w'. auto.
Defined.

(** X9. When matches are found and the input is at its end, the
    [EOFError] of [input] leaves [run]: the prompt was shown and no delete
    statement was sent. *)
Theorem run_without_answer prefix key database table await_complete fuel w r rest rows result :
  replies w = r :: rest -> delivers r rows ->
  map_result (fun record => dict_item record key) rows = Ok result -> result <> [] ->
  answers w = [] ->
  exists w',
    run prefix key database table false await_complete fuel w = (Raises EOFError, w') /\
    trace w' = trace w ++
      [EPost (search_query prefix key database table);
       EPrint (cat [found_message prefix (length result); nl; matches_text result]);
       EInput warning_message] /\
    replies w' = rest.
Proof.
  intros Hw Hr Hres Hne Hans. unfold run.
  erewrite bind_returns by (eapply get_data_found; eassumption).
  cbv beta iota. rewrite (matches_text_nonempty result Hne).
  rewrite bind_unfold. unfold print at 1.
  rewrite bind_unfold. unfold input at 1. simpl answers. rewrite Hans.
  eexists. split; [reflexivity | ].
  cbn [trace log posted set_replies replies snd].
  rewrite <- !app_assoc. repeat split.
Qed.

Lemma run_without_answer_witness :
  exists w',
    run "carbon." (Some "Path") (Some "graphite") "data" false true 3
        (start [reply_rows [key_row "carbon.a"]; reply_accepted] [])
      = (Raises EOFError, w') /\
    replies w' = [reply_accepted].
Proof.
  destruct (run_without_answer "carbon." (Some "Path") (Some "graphite") "data" true 3
              (start [reply_rows [key_row "carbon.a"]; reply_accepted] [])
              (reply_rows [key_row "carbon.a"]) [reply_accepted]
              [key_row "carbon.a"] [VStr "carbon.a"])
    as (w' & Hrun & _ & Hrest); try reflexivity.
  - split; reflexivity.
  - discriminate.
  - exists w'. auto.
Defined.

(** X10. Without [force_delete], [run] sends no delete statement unless
    the operator's next answer is an accepted one, whatever the server
    replies. *)
Theorem run_no_delete_unconfirmed prefix key database table await_complete fuel (w : world) :
  confirms w = false ->
  exists events,
    trace (snd (run prefix key database table false await_complete fuel w))
      = trace w ++ events /\
    forallb (fun e => negb (is_delete e)) events = true.
Proof.
  intros Hno. unfold confirms in Hno.
  destruct (get_data_world prefix key database table w) as (Htrace & _ & Hans).
  unfold run. rewrite bind_unfold.
  destruct (get_data prefix key database table w) as [[[message matches] | e | ] w1];
    cbn [snd] in *.
  - destruct (falsy matches).
    + eexists. split; [cbn; rewrite Htrace, <- app_assoc; reflexivity | reflexivity].
    + rewrite bind_unfold. unfold print at 1.
      rewrite bind_unfold. unfold input at 1. simpl answers. rewrite Hans.
      destruct (answers w) as [ | a lines].
      * eexists. split; [cbn; rewrite Htrace, <- !app_assoc; reflexivity | reflexivity].
      * rewrite Hno.
        eexists. split; [cbn; rewrite Htrace, <- !app_assoc; reflexivity | reflexivity].
  - eexists. split; [exact Htrace | reflexivity].
  - eexists. split; [exact Htrace | reflexivity].
Qed.

Lemma run_no_delete_unconfirmed_witness :
  exists events,
    trace (snd (run "carbon." (Some "Path") (Some "graphite") "data" false true 3
                    (start [reply_rows [key_row "carbon.a"]; reply_accepted] ["n"])))
      = events /\
    forallb (fun e => negb (is_delete e)) events = true.
Proof.
  apply (run_no_delete_unconfirmed "carbon." (Some "Path") (Some "graphite") "data" true 3
           (start [reply_rows [key_row "carbon.a"]; reply_accepted] ["n"])).
  reflexivity.
Defined.

(** X11. The whole path of a confirmed delete without waiting: search,
    list of matches, prompt, delete statement, OK line, one status fetch
    and the short status report, three requests in all. *)
Theorem run_confirmed_path prefix key database table fuel w r1 r2 r3 rest rows result
    a lines vars :
  replies w = r1 :: r2 :: r3 :: rest ->
  delivers r1 rows ->
  map_result (fun record => dict_item record key) rows = Ok result -> result <> [] ->
  answers w = a :: lines -> str_in (lower a) accepted_answers = true ->
  resp_ok r2 = true ->
  summarizes r3 vars ->
  exists w',
    run prefix key database table false false fuel w = (Returns tt, w') /\
    trace w' = trace w ++
      [EPost (search_query prefix key database table);
       EPrint (cat [found_message prefix (length result); nl; matches_text result]);
       EInput warning_message;
       EPost (delete_query prefix key database table);
       EPrint (deleted_line prefix key database table);
       EPost (mutations_query database table (today w))]
      ++ status_lines database table true vars /\
    replies w' = rest /\ answers w' = lines.
Proof.
  intros Hw H1 Hres Hne Hans Hyes H2 H3.
  erewrite run_confirmed by eassumption.
  unfold try_except. rewrite bind_unfold.
  erewrite delete_data_ok; [ | reflexivity | exact H2].
  erewrite check_mutations_unfold; [ | reflexivity | exact H3].
  eexists. split; [reflexivity | ].
  cbn [mret M_ret trace logs log posted asked set_replies set_answers replies answers
       fst snd today].
  rewrite <- !app_assoc. repeat split.
Qed.

Lemma run_confirmed_path_witness :
  exists w',
    run "carbon." (Some "Path") (Some "graphite") "data" false false 0
        (start [reply_rows [key_row "carbon.a"]; reply_accepted;
                reply_rows [mutation_row "4" 0 EmptyString]] ["Yes"])
      = (Returns tt, w') /\
    count_posts (trace w') = 3%nat /\ replies w' = [] /\ answers w' = [].
Proof.
  destruct (run_confirmed_path "carbon." (Some "Path") (Some "graphite") "data" 0
              (start [reply_rows [key_row "carbon.a"]; reply_accepted;
                      reply_rows [mutation_row "4" 0 EmptyString]] ["Yes"])
              (reply_rows [key_row "carbon.a"]) reply_accepted
              (reply_rows [mutation_row "4" 0 EmptyString]) []
              [key_row "carbon.a"] [VStr "carbon.a"] "Yes" [] (1, 1, 0, 0)%nat)
    as (w' & Hrun & Htrace & Hrest & Hans); try reflexivity.
  - split; reflexivity.
  - discriminate.
  - eexists. split; [split; reflexivity | reflexivity].
  - exists w'. split; [exact Hrun | ]. split; [rewrite Htrace; reflexivity | auto].
Defined.

(** ** More on polling *)

Lemma status_of_world v (w : world) : snd (status_of v w) = w.
Proof.
  unfold status_of. destruct v as [rows | s | b]; cbn; try reflexivity.
  cbv [mbind M_bind mret M_ret]. destruct (mutation_status rows); reflexivity.
Qed.

Lemma forallb_is_print_status_lines database table pretty vars :
  forallb is_print (status_lines database table pretty vars) = true.
Proof. destruct vars as [[[ip t] c] f]. simpl. destruct (Nat.ltb 0 f); reflexivity. Qed.

(** X12. Without [await_complete], [check_mutations] sends one request,
    whatever the reply: after it come only printed lines, it does not
    sleep and does not ask the operator. *)
Theorem check_mutations_single_fetch database table pretty fuel (w : world) :
  let w' := snd (check_mutations database table false pretty fuel w) in
  exists lines,
    trace w' = trace w ++ EPost (mutations_query database table (today w)) :: lines /\
    forallb is_print lines = true /\
    replies w' = tail (replies w) /\
    answers w' = answers w.
Proof.
  cbv zeta.
  assert (H : exists o w' lines,
             check_mutations database table false pretty fuel w = (o, w') /\
             trace w' = trace w ++ EPost (mutations_query database table (today w)) :: lines /\
             forallb is_print lines = true /\
             replies w' = tail (replies w) /\
             answers w' = answers w).
  { pose proof (execute_sql_world (mutations_query database table (today w)) FmtJson w)
      as (Htrace & Hreplies & Hanswers & _).
    unfold check_mutations. rewrite bind_unfold. unfold get_today at 1.
    rewrite bind_unfold.
    destruct (execute_sql (mutations_query database table (today w)) FmtJson w)
      as [[result | e | ] w1]; cbn [snd] in *;
      [ | eexists _, _, []; split; [reflexivity | auto] ..].
    rewrite bind_unfold.
    pose proof (status_of_world result w1) as Hpure.
    destruct (status_of result w1) as [[vars | e | ] w2]; cbn [snd] in *; subst w2;
      [ | eexists _, _, []; split; [reflexivity | auto] ..].
    destruct vars as [[[ip t] c] f].
    cbv beta iota delta [mbind M_bind mret M_ret print].
    destruct (Nat.ltb 0 f), pretty;
      (eexists _, _, _; split; [reflexivity | ];
       cbn [trace replies answers log];
       rewrite Htrace, <- !app_assoc; cbn [app];
       split; [reflexivity | split; [reflexivity | auto]]). }
  destruct H as (o & w' & lines & -> & H). exists lines. exact H.
Qed.

(** X13. With [await_complete], when the first fetch already shows no
    work in progress, or a failure, [check_mutations] prints the report
    after that one request: the loop body does not run and nothing
    sleeps. *)
Theorem check_mutations_resolved_at_once database table pretty fuel w r rest vars :
  replies w = r :: rest -> summarizes r vars -> resolved vars ->
  exists w',
    check_mutations database table true pretty fuel w = (Returns tt, w') /\
    trace w' = trace w ++
      [EPost (mutations_query database table (today w)); EPrint waiting_message]
      ++ status_lines database table pretty vars /\
    replies w' = rest.
Proof.
  intros Hw Hr Hres. destruct vars as [[[ip t] c] f].
  rewrite (check_mutations_unfold _ _ _ _ _ _ _ _ _ Hw Hr).
  rewrite bind_unfold. unfold print at 1.
  rewrite await_loop_exit by (eapply resolved_exit, Hres).
  eexists. split; [reflexivity | ].
  cbn [trace logs log posted set_replies replies]. rewrite <- !app_assoc.
  split; reflexivity.
Qed.

Lemma check_mutations_resolved_at_once_witness :
  exists w',
    check_mutations (Some "graphite") "data" true true 0
      (start [reply_rows [mutation_row "3" 0 "20200101_1_1_0"]; reply_rejected] [])
      = (Returns tt, w') /\
    count_posts (trace w') = 1%nat /\ count_sleeps (trace w') = 0%nat /\
    replies w' = [reply_rejected].
Proof.
  destruct (check_mutations_resolved_at_once (Some "graphite") "data" true 0
              (start [reply_rows [mutation_row "3" 0 "20200101_1_1_0"]; reply_rejected] [])
              (reply_rows [mutation_row "3" 0 "20200101_1_1_0"]) [reply_rejected]
              (1, 1, 0, 1)%nat)
    as (w' & Hrun & Htrace & Hrest).
  - reflexivity.
  - eexists. split; [split; reflexivity | reflexivity].
  - right. lia.
  - exists w'. split; [exact Hrun | ]. rewrite Htrace. repeat split. exact Hrest.
Defined.

(** X14. Whenever the waiting loop returns, the status it returns shows
    no work in progress, or a failure. *)
Theorem await_loop_returns_resolved fuel query vars (w : world) vars' w' :
  await_loop fuel query vars w = (Returns vars', w') -> resolved vars'.
Proof.
  revert vars w. induction fuel as [ | fuel IH]; intros [[[ip t] c] f] w; simpl;
    destruct (negb (Nat.eqb ip 0) && Nat.eqb f 0) eqn:E; try discriminate.
  - intros [= <- _]. unfold resolved.
    destruct ip; [left; reflexivity | ]. destruct f; [discriminate | right; lia].
  - rewrite bind_unfold.
    destruct (execute_sql query FmtJson w) as [[result | e | ] w1]; try discriminate.
    rewrite bind_unfold.
    destruct (status_of result w1) as [[[[[ip' t'] s'] f'] | e | ] w2]; try discriminate.
    rewrite bind_unfold. unfold sleep at 1. apply IH.
  - intros [= <- _]. unfold resolved.
    destruct ip; [left; reflexivity | ]. destruct f; [discriminate | right; lia].
Qed.

Lemma await_loop_returns_resolved_witness :
  resolved (0, 1, 0, 0)%nat.
Proof.
  apply (await_loop_returns_resolved 3 "q" (2, 1, 0, 0)%nat
           (start [reply_rows [mutation_row "0" 1 EmptyString]] [])
           (0, 1, 0, 0)%nat
           (log ESleep (posted "q" [] (start [reply_rows [mutation_row "0" 1 EmptyString]] [])))).
  reflexivity.
Defined.

(** X15. The waiting loop has no bound of its own: as many replies as one
    likes that show work in progress and no failure make it send as many
    requests and sleep as many times, and it still has not returned. *)
Theorem await_loop_keeps_polling query (rs rest : list response)
    in_progress total completed (w : world) :
  Forall pending rs ->
  replies w = rs ++ rest ->
  exists w',
    await_loop (length rs) query (S in_progress, total, completed, O) w = (Diverges, w') /\
    replies w' = rest /\
    count_posts (trace w') = (count_posts (trace w) + length rs)%nat /\
    count_sleeps (trace w') = (count_sleeps (trace w) + length rs)%nat.
Proof.
  intros Hrs Hw.
  destruct (await_loop_skip query rest rs Hrs in_progress total completed w Hw)
    as (ip' & t' & w' & Hloop & Hrest & Hposts & Hsleeps).
  exists w'. split; [ | auto].
  specialize (Hloop O). rewrite Nat.add_0_r in Hloop. rewrite Hloop. reflexivity.
Qed.

Lemma await_loop_keeps_polling_witness :
  exists w',
    await_loop 2 "q" (1, 1, 0, 0)%nat
      (start [reply_rows [mutation_row "4" 0 EmptyString];
              reply_rows [mutation_row "4" 0 EmptyString]; reply_rejected] [])
      = (Diverges, w') /\
    replies w' = [reply_rejected] /\
    count_posts (trace w') = 2%nat /\ count_sleeps (trace w') = 2%nat.
Proof.
  apply (await_loop_keeps_polling "q"
           [reply_rows [mutation_row "4" 0 EmptyString];
            reply_rows [mutation_row "4" 0 EmptyString]] [reply_rejected] 0 1 0
           (start _ [])).
  - repeat constructor; exact pending_sample.
  - reflexivity.
Defined.

(** X16. With [await_complete], [check_mutations] polls until the first
    reply that shows no work in progress, or a failure: after a first
    reply and [n] more that show work in progress, the next, resolved,
    reply ends the wait after [n + 2] requests and [n + 1] sleeps, and no
    later reply is used. *)
Theorem check_mutations_waits_for_resolution database table pretty fuel w
    r0 (rs : list response) r rest vars :
  replies w = r0 :: rs ++ r :: rest ->
  pending r0 -> Forall pending rs ->
  summarizes r vars -> resolved vars ->
  (length rs < fuel)%nat ->
  exists w',
    check_mutations database table true pretty fuel w = (Returns tt, w') /\
    replies w' = rest /\
    count_posts (trace w') = (count_posts (trace w) + length rs + 2)%nat /\
    count_sleeps (trace w') = (count_sleeps (trace w) + length rs + 1)%nat.
Proof.
  intros Hw (ip0 & t0 & c0 & H0) Hrs Hr Hres Hfuel.
  destruct vars as [[[ip t] c] f].
  set (query := mutations_query database table (today w)).
  rewrite (check_mutations_unfold _ _ _ _ _ _ _ _ _ Hw H0). fold query.
  rewrite bind_unfold. unfold print at 1.
  destruct (await_loop_skip query (r :: rest) rs Hrs ip0 t0 c0
              (log (EPrint waiting_message) (posted query (rs ++ r :: rest) w)) eq_refl)
    as (ip' & t' & w1 & Hloop & Hrest & Hposts & Hsleeps).
  replace fuel with (length rs + S (fuel - length rs - 1))%nat by lia.
  rewrite Hloop.
  erewrite await_loop_step; [ | reflexivity | exact Hrest | exact Hr].
  rewrite await_loop_exit by (eapply resolved_exit, Hres).
  eexists. split; [reflexivity | ]. split; [reflexivity | ].
  cbn [trace logs log posted set_replies] in *.
  rewrite !count_posts_app, !count_sleeps_app in *.
  rewrite count_posts_status_lines, count_sleeps_status_lines, Hposts, Hsleeps.
  unfold count_posts, count_sleeps. simpl. lia.
Qed.

Lemma check_mutations_waits_for_resolution_witness :
  exists w',
    check_mutations (Some "graphite") "data" true true 5
      (start [reply_rows [mutation_row "4" 0 EmptyString];
              reply_rows [mutation_row "4" 0 EmptyString];
              reply_rows [mutation_row "4" 0 EmptyString];
              reply_rows [mutation_row "0" 1 EmptyString];
              reply_rejected] []) = (Returns tt, w') /\
    replies w' = [reply_rejected] /\
    count_posts (trace w') = 4%nat /\ count_sleeps (trace w') = 3%nat.
Proof.
  apply (check_mutations_waits_for_resolution (Some "graphite") "data" true 5
           (start _ [])
           (reply_rows [mutation_row "4" 0 EmptyString])
           [reply_rows [mutation_row "4" 0 EmptyString];
            reply_rows [mutation_row "4" 0 EmptyString]]
           (reply_rows [mutation_row "0" 1 EmptyString]) [reply_rejected]
           (0, 1, 1, 0)%nat).
  - reflexivity.
  - exact pending_sample.
  - repeat constructor; exact pending_sample.
  - eexists. split; [split; reflexivity | reflexivity].
  - left. reflexivity.
  - simpl. lia.
Defined.

(** X17. After a confirmed delete, a status reply whose rows
    [mutation_status] rejects (a row without [parts_to_do], say) raises an
    exception that is not a [RuntimeError]: [run] does not catch it, and
    it leaves [run] after the delete was done. *)
Theorem run_unreadable_status prefix key database table await_complete fuel w
    r1 r2 r3 rest rows result a lines status_rows e :
  replies w = r1 :: r2 :: r3 :: rest ->
  delivers r1 rows ->
  map_result (fun record => dict_item record key) rows = Ok result -> result <> [] ->
  answers w = a :: lines -> str_in (lower a) accepted_answers = true ->
  resp_ok r2 = true ->
  delivers r3 status_rows -> mutation_status status_rows = Err e ->
  exists w',
    run prefix key database table false await_complete fuel w = (Raises e, w') /\
    plain e /\
    posts_of (trace w') = posts_of (trace w) ++
      [EPost (search_query prefix key database table);
       EPost (delete_query prefix key database table);
       EPost (mutations_query database table (today w))] /\
    replies w' = rest.
Proof.
  intros Hw H1 Hres Hne Hans Hyes H2 H3 He.
  pose proof (mutation_status_plain _ _ He) as Hplain.
  erewrite run_confirmed by eassumption.
  unfold try_except. rewrite bind_unfold.
  erewrite delete_data_ok; [ | reflexivity | exact H2].
  unfold check_mutations. rewrite bind_unfold. unfold get_today at 1.
  erewrite bind_returns by (eapply execute_sql_rows; [reflexivity | exact H3]).
  rewrite bind_unfold. unfold status_of at 1.
  cbv [mbind M_bind mret M_ret lift iter_rows]. rewrite He.
  unfold raise. destruct e; try contradiction;
    (eexists; split; [reflexivity | ]; split; [exact I | ];
     cbn [trace log posted asked set_replies set_answers replies today];
     unfold posts_of; rewrite !List.filter_app; cbn [List.filter is_post app];
     rewrite ?app_nil_r, <- ?app_assoc; split; reflexivity).
Qed.

Lemma run_unreadable_status_witness :
  exists w',
    run "carbon." (Some "Path") (Some "graphite") "data" false false 0
        (start [reply_rows [key_row "carbon.a"]; reply_accepted;
                reply_rows [key_row "carbon.a"]] ["y"])
      = (Raises TypeError, w') /\
    replies w' = [].
Proof.
  destruct (run_unreadable_status "carbon." (Some "Path") (Some "graphite") "data" false 0
              (start [reply_rows [key_row "carbon.a"]; reply_accepted;
                      reply_rows [key_row "carbon.a"]] ["y"])
              (reply_rows [key_row "carbon.a"]) reply_accepted
              (reply_rows [key_row "carbon.a"]) []
              [key_row "carbon.a"] [VStr "carbon.a"] "y" [] [key_row "carbon.a"] TypeError)
    as (w' & Hrun & _ & _ & Hrest); try reflexivity.
  - split; reflexivity.
  - discriminate.
  - split; reflexivity.
  - exists w'. auto.
Defined.

(** ** The status-only mode reads only *)

Section Emits.

Variable P : event -> bool.
Hypothesis P_print : forall line, P (EPrint line) = true.

Lemma emits_ret {A} (a : A) : emits P (mret a).
Proof. intros w. exists []. cbn. rewrite app_nil_r. auto. Qed.

Lemma emits_raise {A} (e : exn) : emits P (raise (A := A) e).
Proof. intros w. exists []. cbn. rewrite app_nil_r. auto. Qed.

Lemma emits_lift {A} (r : result A) : emits P (lift r).
Proof. destruct r; [apply emits_ret | apply emits_raise]. Qed.

Lemma emits_print line : emits P (print line).
Proof. intros w. exists [EPrint line]. cbn. rewrite P_print. auto. Qed.

Lemma emits_bind {A B} (m : M A) (f : A -> M B) :
  emits P m -> (forall a, emits P (f a)) -> emits P (m ≫= f).
Proof.
  intros Hm Hf w. rewrite bind_unfold.
  destruct (Hm w) as (ev & Hev & HP).
  destruct (m w) as [[a | e | ] w1]; cbn [snd] in *; [ | exists ev; auto ..].
  destruct (Hf a w1) as (ev' & Hev' & HP').
  exists (ev ++ ev'). rewrite Hev', Hev, app_assoc, forallb_app, HP, HP'. auto.
Qed.

Lemma emits_for_each {A} (l : list A) (body : A -> M unit) :
  (forall x, emits P (body x)) -> emits P (for_each l body).
Proof.
  intros Hb. induction l as [ | x l IH]; simpl.
  - apply emits_ret.
  - apply emits_bind; [apply Hb | intros _; exact IH].
Qed.

Lemma emits_execute_sql q f : P (EPost q) = true -> emits P (execute_sql q f).
Proof.
  intros HP w. exists [EPost q].
  split; [apply execute_sql_world | cbn; rewrite HP; reflexivity].
Qed.

Lemma emits_status_of v : emits P (status_of v).
Proof.
  unfold status_of. apply emits_bind; [apply emits_lift | intros rows; apply emits_lift].
Qed.

Lemma emits_check_mutations_once database table pretty fuel :
  (forall day, P (EPost (mutations_query database table day)) = true) ->
  emits P (check_mutations database table false pretty fuel).
Proof.
  intros HP. unfold check_mutations.
  apply emits_bind; [intros w; exists []; cbn; rewrite app_nil_r; auto | intros day].
  apply emits_bind; [apply emits_execute_sql, HP | intros result].
  apply emits_bind; [apply emits_status_of | intros vars].
  apply emits_bind; [apply emits_ret | intros [[[ip t] c] f]].
  apply emits_bind;
    [destruct (Nat.ltb 0 f); [apply emits_print | apply emits_ret] | intros _].
  apply emits_bind; [apply emits_print | intros _].
  apply emits_bind; [apply emits_print | intros _].
  destruct pretty; apply emits_print.
Qed.

End Emits.

(** X18. With [--checkout-only], whatever the other arguments and the
    replies, [main] sends no delete statement, does not ask the operator
    and does not sleep. *)
Theorem main_checkout_reads_only args config fuel (w : world) :
  arg_checkout_only args = true ->
  exists events,
    trace (snd (main args config fuel w)) = trace w ++ events /\
    forallb read_only events = true.
Proof.
  intros Hc. revert w. change (emits read_only (main args config fuel)).
  unfold main. rewrite Hc.
  destruct (String.eqb (arg_table args) EmptyString); [apply emits_raise | ].
  destruct (is_nil (split "," (arg_prefix args)) && negb true); [apply emits_raise | ].
  destruct (arg_force args && true || arg_await_mutation_end args && arg_force args);
    [apply emits_raise | ].
  apply emits_for_each. intros table.
  apply emits_check_mutations_once; reflexivity.
Qed.

Lemma main_checkout_reads_only_witness :
  let args := {| arg_prefix := "carbon."; arg_key := None; arg_database := None;
                 arg_table := "data,data_reverse"; arg_checkout_only := true;
                 arg_await_mutation_end := true; arg_force := false |} in
  exists events,
    trace (snd (main args sample_config 3
                     (start [reply_rows [mutation_row "4" 0 EmptyString]; reply_rejected]
                            ["y"])))
      = events /\
    forallb read_only events = true.
Proof.
  intros args.
  apply (main_checkout_reads_only args sample_config 3
           (start [reply_rows [mutation_row "4" 0 EmptyString]; reply_rejected] ["y"])).
  reflexivity.
Defined.

(** ** A forced batch *)

Lemma posts_of_app t t' : posts_of (t ++ t') = posts_of t ++ posts_of t'.
Proof. apply List.filter_app. Qed.

Lemma sends_bind (p q : list event) (m k : M unit) :
  sends p m -> sends q k -> sends (p ++ q) (m ;; k).
Proof.
  intros Hm Hk w. rewrite bind_unfold.
  destruct (Hm w) as (w1 & ev & -> & Hev & Hp & Hin & Hans).
  destruct (Hk w1) as (w2 & ev' & Hrun & Hev' & Hp' & Hin' & Hans').
  exists w2, (ev ++ ev'). split; [exact Hrun | ].
  rewrite Hev', Hev, app_assoc, posts_of_app, Hp, Hp', forallb_app, Hin, Hin'.
  repeat split. congruence.
Qed.

Lemma sends_nothing : sends [] (mret tt).
Proof. intros w. exists w, []. cbn. rewrite app_nil_r. auto. Qed.

Lemma sends_print line : sends [] (print line).
Proof. intros w. exists (log (EPrint line) w), [EPrint line]. cbn. auto. Qed.

Lemma sends_for_each {A} (g : A -> list event) (l : list A) (body : A -> M unit) :
  (forall x, sends (g x) (body x)) -> sends (flat_map g l) (for_each l body).
Proof.
  intros Hb. induction l as [ | x l IH]; simpl.
  - apply sends_nothing.
  - apply sends_bind; [apply Hb | exact IH].
Qed.

Lemma sends_run_force prefix key database table await_complete fuel :
  sends [EPost (delete_query prefix key database table)]
        (run prefix key database table true await_complete fuel).
Proof.
  intros w. unfold run, finally_return, try_except.
  destruct (replies w) as [ | r rest] eqn:Hw.
  - rewrite (delete_data_no_reply _ _ _ _ _ Hw).
    eexists _, _. split; [reflexivity | ]. cbn [print trace log answers].
    rewrite <- app_assoc. repeat split.
  - destruct (resp_ok r) eqn:Hr.
    + rewrite (delete_data_ok _ _ _ _ _ _ _ Hw Hr).
      eexists _, _. split; [reflexivity | ].
      cbn [print trace log posted set_replies answers].
      rewrite <- !app_assoc. repeat split.
    + rewrite (delete_data_error _ _ _ _ _ _ _ Hw Hr).
      eexists _, _. split; [reflexivity | ].
      cbn [print trace log posted set_replies answers].
      rewrite <- !app_assoc. repeat split.
Qed.

Lemma flat_map_singleton {A B} (f : A -> B) (l : list A) :
  flat_map (fun x => [f x]) l = map f l.
Proof. induction l as [ | x l IH]; simpl; congruence. Qed.

(** X19. With [--force] (and neither [--checkout-only] nor
    [--await-mutation-end]), [main] sends one delete statement for every
    prefix and every table, prefix by prefix and table by table, whatever
    the server replies: no error stops the batch, the operator is never
    asked, nothing else is requested, and [main] returns after the closing
    hint. *)
Theorem main_force_batch args config fuel (w : world) :
  arg_force args = true -> arg_checkout_only args = false ->
  arg_await_mutation_end args = false ->
  arg_table args <> EmptyString ->
  let key := py_or (arg_key args) (cfg_match_key config) in
  let database := py_or (arg_database args) (cfg_database config) in
  exists w' events,
    main args config fuel w = (Returns tt, w') /\
    trace w' = trace w ++ events ++ [EPrint force_footer] /\
    posts_of events =
      flat_map (fun prefix =>
                  map (fun table => EPost (delete_query prefix key database table))
                      (split "," (arg_table args)))
               (split "," (arg_prefix args)) /\
    forallb (fun e => negb (is_input e)) events = true /\
    answers w' = answers w.
Proof.
  intros Hf Hc Ha Ht key database.
  assert (Hloop :
    sends (flat_map (fun prefix =>
                       map (fun table => EPost (delete_query prefix key database table))
                           (split "," (arg_table args)))
                    (split "," (arg_prefix args)))
          (for_each (split "," (arg_prefix args)) (fun prefix =>
             for_each (split "," (arg_table args)) (fun table =>
               run prefix key database table true false fuel)))).
  { apply sends_for_each. intros prefix.
    rewrite <- flat_map_singleton.
    apply sends_for_each. intros table. apply sends_run_force. }
  destruct (Hloop w) as (w1 & events & Hrun & Htrace & Hposts & Hin & Hans).
  exists (log (EPrint force_footer) w1), events.
  split; [ | cbn [trace log answers]; rewrite Htrace, <- app_assoc; auto].
  unfold main. apply String.eqb_neq in Ht.
  rewrite Ht, Hc, Hf, Ha, split_not_nil. cbn [andb orb negb].
  rewrite bind_unfold. fold key database. rewrite Hrun. reflexivity.
Qed.

Lemma main_force_batch_witness :
  let args := {| arg_prefix := "carbon.,stats."; arg_key := Some "Path";
                 arg_database := Some "graphite"; arg_table := "data,data_reverse";
                 arg_checkout_only := false; arg_await_mutation_end := false;
                 arg_force := true |} in
  exists w' events,
    main args sample_config 0 (start [reply_accepted; reply_rejected] []) = (Returns tt, w') /\
    trace w' = events ++ [EPrint force_footer] /\
    posts_of events =
      [EPost (delete_query "carbon." (Some "Path") (Some "graphite") "data");
       EPost (delete_query "carbon." (Some "Path") (Some "graphite") "data_reverse");
       EPost (delete_query "stats." (Some "Path") (Some "graphite") "data");
       EPost (delete_query "stats." (Some "Path") (Some "graphite") "data_reverse")].
Proof.
  intros args.
  destruct (main_force_batch args sample_config 0
              (start [reply_accepted; reply_rejected] []))
    as (w' & events & Hrun & Htrace & Hposts & _); try reflexivity.
  - discriminate.
  - exists w', events. split; [exact Hrun | ]. split; [exact Htrace | exact Hposts].
Defined.

(** ** The lists of prefixes and tables *)

(** X20. Joining the pieces of [split] with the separator gives the
    string back: [main] drops and trims nothing of [--prefix] and
    [--table]. *)
Theorem split_join (sep : ascii) (s : string) :
  String.concat (String sep EmptyString) (split sep s) = s.
Proof.
  induction s as [ | c s IH]; [reflexivity | ].
  cbn [split]. pose proof (split_nonempty sep s) as Hne.
  destruct (Ascii.eqb c sep) eqn:E.
  - apply Ascii.eqb_eq in E. subst c.
    destruct (split sep s) as [ | h t]; [congruence | ].
    rewrite <- IH. reflexivity.
  - destruct (split sep s) as [ | h t]; [congruence | ].
    rewrite <- IH. destruct t; reflexivity.
Qed.

(** ** The older script reads [Path] *)

(** X21. In [main.py], [get_data] reads the column [Path] from every row,
    whatever [--key] says: when a row has no [Path] (as when the key is
    another column, since only the key is selected), the [KeyError] leaves
    [get_data] and [run] before anything is printed or asked. *)
Theorem main_py_reads_path prefix key database table await_complete fuel w r rest rows :
  replies w = r :: rest -> delivers r rows ->
  Exists (fun row : record => row !! "Path" = None) rows ->
  let statement := MainPy.search_query prefix key database table in
  MainPy.get_data prefix key database table w = (Raises KeyError, posted statement rest w) /\
  MainPy.run prefix key database table false await_complete fuel w =
    (Raises KeyError, posted statement rest w).
Proof.
  intros Hw [Hok Hjson] Hmiss statement.
  assert (Hget : MainPy.get_data prefix key database table w =
                 (Raises KeyError, posted statement rest w)).
  { unfold MainPy.get_data. rewrite bind_unfold.
    unfold MainPy.execute_sql at 1. cbn [replies log]. rewrite Hw, Hok, Hjson.
    cbn [negb]. fold statement.
    change (lift (MainPy.iter_rows (MainPy.SRows rows))) with (mret (M := M) rows).
    rewrite bind_unfold. cbv beta iota delta [mret M_ret].
    rewrite (map_dict_item_missing (Some "Path") rows); [reflexivity | ].
    eapply Exists_impl; [exact Hmiss | ].
    intros row Hrow. unfold dict_item. rewrite Hrow. reflexivity. }
  split; [exact Hget | ].
  unfold MainPy.run. apply bind_raises, Hget.
Qed.

Lemma main_py_reads_path_witness :
  MainPy.run "carbon." (Some "Metric") (Some "graphite") "data" false false 0
      (start [reply_rows [ {[ "Metric" := VStr "carbon.a" ]} ]] ["y"])
    = (Raises KeyError,
       posted (MainPy.search_query "carbon." (Some "Metric") (Some "graphite") "data") []
              (start [reply_rows [ {[ "Metric" := VStr "carbon.a" ]} ]] ["y"])).
Proof.
  apply (main_py_reads_path "carbon." (Some "Metric") (Some "graphite") "data" false 0
           (start [reply_rows [ {[ "Metric" := VStr "carbon.a" ]} ]] ["y"])
           (reply_rows [ {[ "Metric" := VStr "carbon.a" ]} ]) []
           [ {[ "Metric" := VStr "carbon.a" ]} ]).
  - reflexivity.
  - split; reflexivity.
  - constructor. reflexivity.
Defined.
